(** * Station TV reporting: HTML transcription reports and QoS summaries

    A shallow embedding of [export/html_reporter.py] (class
    [HTMLTranscriptionReporter]) and [qos/reporter.py] (class [QoSReporter]),
    followed by the properties of the report-assembly pipeline.

    Conventions of the embedding.
    - A Python [str] is a [string] holding its UTF-8 bytes (files are read and
      written with [encoding='utf-8']).
    - A Python [float] is an IEEE 754 binary64 number, with the operations of
      the standard library's [SpecFloat]; comparisons and the [.nf] formats
      work on the exact value of the double.
    - What pandas, matplotlib and the file system do is taken at their
      boundary: a CSV file is absent, unreadable, or holds an already parsed
      [DataFrame], which carries what pandas answers for the mean and the
      maximum of each column; drawing and saving a figure or writing a file
      succeeds or fails.
    - [try ... except Exception] blocks are written with the [result] monad;
      logging is left out. *)

From Stdlib Require Import String Ascii List ZArith QArith Bool Lia.
From Stdlib Require Import DecimalString.
From Stdlib Require Import SpecFloat.
From stdpp Require Import base option list strings gmap.
Import ListNotations.

#[local] Arguments String.append !_ _ / : simpl nomatch.

(** ** Python strings *)

Module PyStr.

Definition code (c : ascii) : N := N_of_ascii c.

Definition nl : ascii := ascii_of_N 10.
Definition NL : string := String nl "".
Definition NLNL : string := String nl NL.

Definition dquote : ascii := ascii_of_N 34.
Definition backquote : ascii := ascii_of_N 96.

(** A literal of the source.  A literal of this file cannot hold the
    double-quote character: a backquote, which the two source files never use,
    stands for it. *)
Fixpoint lit (s : string) : string :=
  match s with
  | "" => ""
  | String c s' => String (if Ascii.eqb c backquote then dquote else c) (lit s')
  end.

(** An f-string: the concatenation of its literal parts and the values of its
    replacement fields. *)
Definition fstr (parts : list string) : string :=
  fold_right String.append "" parts.

(** [s * n]. *)
Fixpoint py_repeat (s : string) (n : nat) : string :=
  match n with
  | O => ""
  | S n' => s +:+ py_repeat s n'
  end.

(** [str.isspace] on the one-byte code points. *)
Definition ascii_space (c : ascii) : bool :=
  ((9 <=? code c) && (code c <=? 13) || (28 <=? code c) && (code c <=? 32))%N.

(** U+0085 and U+00A0. *)
Definition two_byte_space (c d : ascii) : bool :=
  ((code c =? 0xC2) && ((code d =? 0x85) || (code d =? 0xA0)))%N.

(** U+1680, U+2000..U+200A, U+2028, U+2029, U+202F, U+205F and U+3000. *)
Definition three_byte_space (c d e : ascii) : bool :=
  ((code c =? 0xE1) && (code d =? 0x9A) && (code e =? 0x80)
   || (code c =? 0xE2) && (code d =? 0x80)
      && ((0x80 <=? code e) && (code e <=? 0x8A)
          || (code e =? 0xA8) || (code e =? 0xA9) || (code e =? 0xAF))
   || (code c =? 0xE2) && (code d =? 0x81) && (code e =? 0x9F)
   || (code c =? 0xE3) && (code d =? 0x80) && (code e =? 0x80))%N.

(** [t] is the encoding of exactly one white-space code point. *)
Definition is_ws_token (t : string) : bool :=
  match t with
  | String c "" => ascii_space c
  | String c (String d "") => two_byte_space c d
  | String c (String d (String e "")) => three_byte_space c d e
  | _ => false
  end.

(** [str.lstrip()]. *)
Fixpoint lstrip (s : string) : string :=
  match s with
  | "" => ""
  | String c s1 =>
    if ascii_space c then lstrip s1 else
    match s1 with
    | String d s2 =>
      if two_byte_space c d then lstrip s2 else
      match s2 with
      | String e s3 => if three_byte_space c d e then lstrip s3 else s
      | "" => s
      end
    | "" => s
    end
  end.

(** [str.rstrip()]: the tail is stripped first; what is left of it is dropped
    together with [c] when they form one white-space code point. *)
Fixpoint rstrip (s : string) : string :=
  match s with
  | "" => ""
  | String c s' =>
    let t := String c (rstrip s') in
    if is_ws_token t then "" else t
  end.

(** [str.strip()]. *)
Definition py_strip (s : string) : string := rstrip (lstrip s).

(** [Some rest] when [s = p ++ rest]. *)
Fixpoint strip_prefix (p s : string) : option string :=
  match p with
  | "" => Some s
  | String a p' =>
    match s with
    | String b s' => if Ascii.eqb a b then strip_prefix p' s' else None
    | "" => None
    end
  end.

Definition cons_head (c : ascii) (l : list string) : list string :=
  match l with
  | [] => [String c ""]
  | p :: ps => String c p :: ps
  end.

(** [str.split(sep)] for a non-empty [sep], scanning left to right; [n] bounds
    the number of steps. *)
Fixpoint split_fuel (n : nat) (sep s : string) : list string :=
  match n with
  | O => [s]
  | S n' =>
    match strip_prefix sep s with
    | Some rest => "" :: split_fuel n' sep rest
    | None =>
      match s with
      | "" => [""]
      | String c s' => cons_head c (split_fuel n' sep s')
      end
    end
  end.

Definition py_split (sep s : string) : list string :=
  split_fuel (S (String.length s)) sep s.

(** [sep.join(l)]. *)
Fixpoint py_join (sep : string) (l : list string) : string :=
  match l with
  | [] => ""
  | [x] => x
  | x :: xs => x +:+ sep +:+ py_join sep xs
  end.

(** [needle in s]. *)
Fixpoint contains (needle s : string) : bool :=
  match strip_prefix needle s with
  | Some _ => true
  | None =>
    match s with
    | "" => false
    | String _ s' => contains needle s'
    end
  end.

(** [str.lower()] on the letters A-Z. *)
Definition lower_char (c : ascii) : ascii :=
  if ((65 <=? code c) && (code c <=? 90))%N then ascii_of_N (code c + 32) else c.

Fixpoint py_lower (s : string) : string :=
  match s with
  | "" => ""
  | String c s' => String (lower_char c) (py_lower s')
  end.

(** [s.rfind(c)] as an option. *)
Fixpoint rfind (c : ascii) (s : string) : option nat :=
  match s with
  | "" => None
  | String a s' =>
    match rfind c s' with
    | Some i => Some (S i)
    | None => if Ascii.eqb a c then Some 0 else None
    end
  end.

(** [Path(p).name] and [Path(p).suffix] for a path written with slashes. *)
Definition path_name (p : string) : string :=
  match rfind "/" p with
  | Some i => String.substring (S i) (String.length p - S i) p
  | None => p
  end.

Definition path_suffix (p : string) : string :=
  let name := path_name p in
  match rfind "." name with
  | Some i =>
    if (0 <? i) && (i <? String.length name - 1)
    then String.substring i (String.length name - i) name
    else ""
  | None => ""
  end.

(** Truth value of a [str]. *)
Definition truthy_str (s : string) : bool :=
  match s with "" => false | String _ _ => true end.

End PyStr.
Import PyStr.

(** ** Exceptions *)

Inductive exn :=
| KeyError (key : string)
| IndexError
| TypeError
| ValueError
| OverflowError
| FileNotFoundError
| ReadError
| WriteError.

Inductive result (A : Type) : Type :=
| Ok (a : A)
| Raise (e : exn).
Arguments Ok {A} a.
Arguments Raise {A} e.

#[global] Instance result_ret : MRet result := fun A a => Ok a.
#[global] Instance result_bind : MBind result :=
  fun A B f m => match m with Ok a => f a | Raise e => Raise e end.

(** ** Python numbers *)

Module PyNum.

(** A [float] is an IEEE 754 binary64 number: a signed zero, an infinity, a
    NaN, or [m * 2 ^ e] with its sign. *)
Definition pyfloat : Type := spec_float.

Definition prec : Z := 53.
Definition emax : Z := 1024.

(** [float(z)] before the range check: the nearest double, ties to even, and
    an infinity when [z] is beyond the doubles. *)
Definition float_of_Z (z : Z) : pyfloat := binary_normalize prec emax z 0 false.

(** [x * y] and [x / y] on floats. *)
Definition fmul (x y : pyfloat) : pyfloat := SFmul prec emax x y.
Definition fdiv (x y : pyfloat) : pyfloat := SFdiv prec emax x y.

(** The double that a decimal literal [n / d] denotes, for [n] and [d] that are
    doubles themselves: [dbl 99 100] is the literal [0.99]. *)
Definition dbl (n d : Z) : pyfloat := fdiv (float_of_Z n) (float_of_Z d).

Definition NaN : pyfloat := S754_nan.

(** [str] of an [int]. *)
Definition str_of_Z (z : Z) : string := NilZero.string_of_int (Z.to_int z).

Definition zfill (width : nat) (s : string) : string :=
  py_repeat "0" (width - String.length s) +:+ s.

(** [a / b] rounded to the nearest integer, ties to even ([0 < b]). *)
Definition round_half_even (a b : Z) : Z :=
  let q := (a / b)%Z in
  let r := (a mod b)%Z in
  if (2 * r <? b)%Z then q
  else if (b <? 2 * r)%Z then (q + 1)%Z
  else if Z.even q then q else (q + 1)%Z.

(** The decimal form of [num / den] with [d] digits after the point. *)
Definition format_magnitude (d : nat) (num den : Z) : string :=
  let scale := (10 ^ Z.of_nat d)%Z in
  let n := round_half_even (num * scale) den in
  str_of_Z (n / scale)
  +:+ match d with
      | O => ""
      | S _ => "." +:+ zfill d (str_of_Z (n mod scale))
      end.

(** The format specification [.{d}f] on a float: the exact value of the
    double, correctly rounded. *)
Definition format_f (d : nat) (x : pyfloat) : string :=
  match x with
  | S754_nan => "nan"
  | S754_infinity s => if s then "-inf" else "inf"
  | S754_zero s => (if s then "-" else "") +:+ format_magnitude d 0 1
  | S754_finite s m e =>
    (if s then "-" else "")
    +:+ (if (0 <=? e)%Z then format_magnitude d (Z.pos m * 2 ^ e) 1
         else format_magnitude d (Z.pos m) (2 ^ (- e)))
  end.

(** A value held by a dictionary: an [int], a [float], a [bool], [None] or a
    string.  The last two stand for the values that are no numbers. *)
Inductive pyval :=
| PInt (z : Z)
| PFloat (x : pyfloat)
| PBool (b : bool)
| PNone
| PStr (s : string).

Definition Z_of_bool (b : bool) : Z := if b then 1 else 0.

(** The float that a format specification [.{d}f] writes: an [int] beyond the
    doubles raises [OverflowError], [None] raises [TypeError] and a string
    [ValueError]. *)
Definition py_float (v : pyval) : result pyfloat :=
  match v with
  | PInt z =>
    match float_of_Z z with
    | S754_infinity _ => Raise OverflowError
    | x => Ok x
    end
  | PFloat x => Ok x
  | PBool b => Ok (float_of_Z (Z_of_bool b))
  | PNone => Raise TypeError
  | PStr _ => Raise ValueError
  end.

(** [f"{v:.{d}f}"]. *)
Definition py_format_f (d : nat) (v : pyval) : result string :=
  x ← py_float v; mret (format_f d x).

(** [v * 100]: exact on an [int], rounded on a [float], the repetition of a
    string. *)
Definition times100 (v : pyval) : result pyval :=
  match v with
  | PInt z => Ok (PInt (z * 100))
  | PFloat x => Ok (PFloat (fmul x (float_of_Z 100)))
  | PBool b => Ok (PInt (Z_of_bool b * 100))
  | PNone => Raise TypeError
  | PStr s => Ok (PStr (py_repeat s 100))
  end.

(** The exact values of numbers. *)
Inductive exact :=
| Finite (q : Q)
| PlusInfinity
| MinusInfinity
| NotANumber.

Definition exact_of_float (x : pyfloat) : exact :=
  match x with
  | S754_nan => NotANumber
  | S754_infinity s => if s then MinusInfinity else PlusInfinity
  | S754_zero _ => Finite 0
  | S754_finite s m e =>
    Finite ((if s then -1 else 1) * inject_Z (Z.pos m) * 2 ^ e)%Q
  end.

Definition exact_ge (a b : exact) : bool :=
  match a, b with
  | NotANumber, _ | _, NotANumber => false
  | PlusInfinity, _ | _, MinusInfinity => true
  | Finite p, Finite q => Qle_bool q p
  | _, _ => false
  end.

(** The exact value of a number. *)
Definition exact_of (v : pyval) : option exact :=
  match v with
  | PInt z => Some (Finite (inject_Z z))
  | PFloat x => Some (exact_of_float x)
  | PBool b => Some (Finite (inject_Z (Z_of_bool b)))
  | PNone | PStr _ => None
  end.

(** [v >= bound] against a number [bound]: numbers are compared by their exact
    values, every comparison with [nan] is false, and a value that is no
    number raises [TypeError]. *)
Definition py_ge (v bound : pyval) : result bool :=
  match exact_of v, exact_of bound with
  | Some a, Some b => Ok (exact_ge a b)
  | _, _ => Raise TypeError
  end.

End PyNum.
Import PyNum.

(** A file of the working directory, as the program finds it. *)
Inductive file (A : Type) : Type :=
| Absent
| Unreadable
| Content (a : A).
Arguments Absent {A}.
Arguments Unreadable {A}.
Arguments Content {A} a.

(** [dict.get(key, default)]. *)
Definition dict_get {V} (d : gmap string V) (key : string) (dflt : V) : V :=
  default dflt (d !! key).

(** ** The clock *)

Record datetime := {
  year : nat; month : nat; day : nat;
  hour : nat; minute : nat; second : nat
}.

Definition pad (width n : nat) : string := zfill width (str_of_Z (Z.of_nat n)).

(** [datetime.strftime] for the directives the reports use; the year is
    written with four digits. *)
Fixpoint strftime (fmt : string) (t : datetime) : string :=
  match fmt with
  | "" => ""
  | String c rest =>
    if Ascii.eqb c "%" then
      match rest with
      | String k rest' =>
        (if Ascii.eqb k "d" then pad 2 (day t)
         else if Ascii.eqb k "m" then pad 2 (month t)
         else if Ascii.eqb k "Y" then pad 4 (year t)
         else if Ascii.eqb k "H" then pad 2 (hour t)
         else if Ascii.eqb k "M" then pad 2 (minute t)
         else if Ascii.eqb k "S" then pad 2 (second t)
         else String c (String k ""))
        +:+ strftime rest' t
      | "" => String c ""
      end
    else String c (strftime rest t)
  end.

(** ** [export/html_reporter.py] *)

Module HtmlReporter.

(** One subtitle cue: the dictionary with the keys ['index'], ['timestamps']
    and ['text'] that [_parse_srt_file] builds. *)
Record Segment := {
  index : string;
  timestamps : string;
  text : string
}.

(** The body of the [try] block of [_parse_srt_file] (lines 76-96), on the
    text returned by [f.read()]. *)
Definition parse_srt_content (content : string) : list Segment :=
  let blocks := py_split NLNL (py_strip content) in
  fold_left
    (fun segments block =>
       let lines := py_split NL (py_strip block) in
       if 3 <=? length lines then
         segments ++ [ {| index := nth 0 lines "";
                          timestamps := nth 1 lines "";
                          text := py_join " " (skipn 2 lines) |} ]
       else segments)
    blocks [].

(** [_parse_srt_file] (lines 61-100): [None] is a file that cannot be opened
    or decoded, which the [except] branch turns into the empty list. *)
Definition _parse_srt_file (srt : option string) : list Segment :=
  match srt with
  | Some content => parse_srt_content content
  | None => []
  end.

(** A cell of a parsed CSV: a number (an integer cell is kept as the double it
    converts to, an empty cell as [nan]), or a text. *)
Inductive cell :=
| Num (x : pyfloat)
| Text (s : string).

(** A column as pandas hands it over: its cells, and what [.mean()] and
    [.max()] answer for it, a value or the exception they raise. *)
Record Series := {
  values : list cell;
  series_mean : result pyfloat;
  series_max : result cell
}.

(** A parsed CSV: the header, the rows of cells, and the answers of pandas
    for the mean and the maximum of each column.  A row shorter than the
    header is read as padded with missing cells. *)
Record DataFrame := {
  columns : list string;
  rows : list (list cell);
  mean_of : string -> result pyfloat;
  max_of : string -> result cell
}.

(** [len(df)]. *)
Definition df_len (df : DataFrame) : nat := length (rows df).

(** [df.empty]. *)
Definition df_empty (df : DataFrame) : bool :=
  (length (columns df) =? 0) || (df_len df =? 0).

Fixpoint index_of (key : string) (l : list string) : option nat :=
  match l with
  | [] => None
  | k :: l' => if String.eqb k key then Some 0 else S <$> index_of key l'
  end.

(** [df[col]]: [KeyError] when the header has no such column. *)
Definition df_getitem (df : DataFrame) (col : string) : result Series :=
  match index_of col (columns df) with
  | Some i =>
    Ok {| values := map (fun row => nth i row (Num NaN)) (rows df);
          series_mean := mean_of df col;
          series_max := max_of df col |}
  | None => Raise (KeyError col)
  end.

(** [series.iloc[-1]] and [series.iloc[0]]. *)
Definition iloc_last (series : Series) : result cell :=
  match last (values series) with
  | Some x => Ok x
  | None => Raise IndexError
  end.

Definition iloc_first (series : Series) : result cell :=
  match values series with
  | x :: _ => Ok x
  | [] => Raise IndexError
  end.

(** [f"{x:.{d}f}"] for a cell: a text has no float format. *)
Definition format_cell (d : nat) (x : cell) : result string :=
  match x with
  | Num x => Ok (format_f d x)
  | Text _ => Raise ValueError
  end.

(** [pd.read_csv]: it raises on a missing file and on a file it cannot parse
    (a file of zero bytes among them). *)
Definition read_csv (f : file DataFrame) : result DataFrame :=
  match f with
  | Content df => Ok df
  | Absent => Raise FileNotFoundError
  | Unreadable => Raise ReadError
  end.

(** [_read_metrics_csv] (lines 102-118). *)
Definition _read_metrics_csv (f : file DataFrame) : option DataFrame :=
  match f with
  | Absent => None
  | _ =>
    match read_csv f with
    | Ok df => Some df
    | Raise _ => None
    end
  end.

(** [base64.b64encode]. *)
Definition b64_char (n : N) : ascii :=
  (if n <? 26 then ascii_of_N (65 + n)
   else if n <? 52 then ascii_of_N (97 + (n - 26))
   else if n <? 62 then ascii_of_N (48 + (n - 52))
   else if n =? 62 then "+"%char else "/"%char)%N.

Fixpoint b64encode (bytes : string) : string :=
  match bytes with
  | "" => ""
  | String a "" =>
    let n := (code a * 65536)%N in
    String (b64_char (n / 262144)) (String (b64_char ((n / 4096) mod 64)) "==")
  | String a (String b "") =>
    let n := (code a * 65536 + code b * 256)%N in
    String (b64_char (n / 262144))
      (String (b64_char ((n / 4096) mod 64))
         (String (b64_char ((n / 64) mod 64)) "="))
  | String a (String b (String c rest)) =>
    let n := (code a * 65536 + code b * 256 + code c)%N in
    String (b64_char (n / 262144))
      (String (b64_char ((n / 4096) mod 64))
         (String (b64_char ((n / 64) mod 64))
            (String (b64_char (n mod 64)) (b64encode rest))))
  end.

(** The MIME table of [_image_to_base64] (lines 49-54). *)
Definition mime_type (ext : string) : string :=
  if String.eqb ext ".png" then "image/png"
  else if String.eqb ext ".jpg" then "image/jpeg"
  else if String.eqb ext ".jpeg" then "image/jpeg"
  else if String.eqb ext ".gif" then "image/gif"
  else "image/png".

(** [_image_to_base64] (lines 35-59): [None] when the file cannot be read. *)
Definition _image_to_base64 (image_path : string) (f : file string) : option string :=
  match f with
  | Content bytes =>
    let encoded := b64encode bytes in
    let ext := py_lower (path_suffix image_path) in
    Some (fstr [ "data:"; mime_type ext; ";base64,"; encoded ])
  | _ => None
  end.

(** Truth value of a list or of a dictionary. *)
Definition truthy_list {A} (l : list A) : bool :=
  match l with [] => false | _ :: _ => true end.

(** [d[key] = value] on a dictionary kept in insertion order. *)
Fixpoint dict_set {V} (d : list (string * V)) (key : string) (value : V) : list (string * V) :=
  match d with
  | [] => [(key, value)]
  | (k, v) :: d' =>
    if String.eqb k key then (k, value) :: d' else (k, v) :: dict_set d' key value
  end.

(** From the doctype to the opening title tag (template lines 194-199). *)
Definition html_head_open : string :=
  lit "<!DOCTYPE html>
<html lang=`fr`>
<head>
    <meta charset=`UTF-8`>
    <meta name=`viewport` content=`width=device-width, initial-scale=1.0`>
    <title>".

(** From the closing title tag through the inline style sheet to the opening h1 tag (lines 199-482). *)
Definition html_style_and_header : string :=
  lit "</title>
    <link href=`https://fonts.googleapis.com/css2?family=Inter:wght@300;400;600;700&display=swap` rel=`stylesheet`>
    <style>
        * {
            margin: 0;
            padding: 0;
            box-sizing: border-box;
        }
        
        :root {
            --bg-primary: #0f172a;
            --bg-secondary: #1e293b;
            --bg-tertiary: #334155;
            --text-primary: #f1f5f9;
            --text-secondary: #cbd5e1;
            --accent-primary: #3b82f6;
            --accent-secondary: #8b5cf6;
            --accent-success: #10b981;
            --shadow: 0 10px 30px rgba(0, 0, 0, 0.3);
        }
        
        [data-theme=`light`] {
            --bg-primary: #ffffff;
            --bg-secondary: #f8fafc;
            --bg-tertiary: #e2e8f0;
            --text-primary: #0f172a;
            --text-secondary: #475569;
        }
        
        body {
            font-family: 'Inter', sans-serif;
            background: linear-gradient(135deg, var(--bg-primary) 0%, var(--bg-secondary) 100%);
            color: var(--text-primary);
            line-height: 1.6;
            min-height: 100vh;
            padding: 2rem;
        }
        
        .container {
            max-width: 1400px;
            margin: 0 auto;
        }
        
        header {
            background: var(--bg-secondary);
            padding: 2rem;
            border-radius: 16px;
            margin-bottom: 2rem;
            box-shadow: var(--shadow);
            position: relative;
        }
        
        h1 {
            font-size: 2.5rem;
            font-weight: 700;
            background: linear-gradient(135deg, var(--accent-primary), var(--accent-secondary));
            -webkit-background-clip: text;
            -webkit-text-fill-color: transparent;
            background-clip: text;
            margin-bottom: 0.5rem;
        }
        
        .subtitle {
            color: var(--text-secondary);
            font-size: 1rem;
        }
        
        .theme-toggle {
            position: absolute;
            top: 2rem;
            right: 2rem;
            background: var(--bg-tertiary);
            border: none;
            color: var(--text-primary);
            padding: 0.75rem 1.5rem;
            border-radius: 8px;
            cursor: pointer;
            font-weight: 600;
            transition: all 0.3s;
        }
        
        .theme-toggle:hover {
            transform: translateY(-2px);
            box-shadow: 0 5px 15px rgba(59, 130, 246, 0.3);
        }
        
        .section {
            background: var(--bg-secondary);
            padding: 2rem;
            border-radius: 16px;
            margin-bottom: 2rem;
            box-shadow: var(--shadow);
        }
        
        .section-title {
            font-size: 1.75rem;
            font-weight: 600;
            margin-bottom: 1.5rem;
            color: var(--text-primary);
            border-left: 4px solid var(--accent-primary);
            padding-left: 1rem;
        }
        
        .metrics-grid {
            display: grid;
            grid-template-columns: repeat(auto-fit, minmax(200px, 1fr));
            gap: 1.5rem;
            margin-bottom: 2rem;
        }
        
        .metric-card {
            background: linear-gradient(135deg, var(--bg-tertiary) 0%, var(--bg-secondary) 100%);
            padding: 1.5rem;
            border-radius: 12px;
            text-align: center;
            transition: transform 0.3s, box-shadow 0.3s;
        }
        
        .metric-card:hover {
            transform: translateY(-5px);
            box-shadow: 0 10px 25px rgba(59, 130, 246, 0.2);
        }
        
        .metric-label {
            font-size: 0.875rem;
            color: var(--text-secondary);
            text-transform: uppercase;
            letter-spacing: 0.5px;
            margin-bottom: 0.5rem;
        }
        
        .metric-value {
            font-size: 2rem;
            font-weight: 700;
            background: linear-gradient(135deg, var(--accent-primary), var(--accent-success));
            -webkit-background-clip: text;
            -webkit-text-fill-color: transparent;
            background-clip: text;
        }
        
        .transcription-box {
            background: var(--bg-tertiary);
            padding: 2rem;
            border-radius: 12px;
            font-size: 1.1rem;
            line-height: 1.8;
            white-space: pre-wrap;
            max-height: 500px;
            overflow-y: auto;
            position: relative;
        }
        
        .copy-btn {
            position: absolute;
            top: 1rem;
            right: 1rem;
            background: var(--accent-primary);
            color: white;
            border: none;
            padding: 0.5rem 1rem;
            border-radius: 6px;
            cursor: pointer;
            font-weight: 600;
            transition: all 0.3s;
        }
        
        .copy-btn:hover {
            background: var(--accent-secondary);
            transform: scale(1.05);
        }
        
        .segment {
            background: var(--bg-tertiary);
            padding: 1rem;
            border-radius: 8px;
            margin-bottom: 1rem;
            border-left: 3px solid var(--accent-primary);
            transition: all 0.3s;
        }
        
        .segment:hover {
            background: var(--bg-primary);
            transform: translateX(5px);
        }
        
        .segment-time {
            font-size: 0.875rem;
            color: var(--accent-primary);
            font-weight: 600;
            margin-bottom: 0.5rem;
        }
        
        .segment-text {
            color: var(--text-primary);
        }
        
        .graph-container {
            margin: 2rem 0;
            border-radius: 12px;
            overflow: hidden;
            box-shadow: var(--shadow);
        }
        
        .graph-image {
            width: 100%;
            height: auto;
            display: block;
        }
        
        .metadata-grid {
            display: grid;
            grid-template-columns: repeat(auto-fit, minmax(250px, 1fr));
            gap: 1rem;
        }
        
        .metadata-item {
            background: var(--bg-tertiary);
            padding: 1rem;
            border-radius: 8px;
        }
        
        .metadata-label {
            font-size: 0.875rem;
            color: var(--text-secondary);
            margin-bottom: 0.25rem;
        }
        
        .metadata-value {
            font-weight: 600;
            color: var(--text-primary);
        }
        
        .collapsible {
            cursor: pointer;
            user-select: none;
            display: flex;
            align-items: center;
            justify-content: space-between;
        }
        
        .collapsible::after {
            content: '▼';
            transition: transform 0.3s;
        }
        
        .collapsible.active::after {
            transform: rotate(-180deg);
        }
        
        .collapsible-content {
            max-height: 0;
            overflow: hidden;
            transition: max-height 0.3s ease-out;
        }
        
        .collapsible-content.active {
            max-height: 5000px;
        }
        
        @media (max-width: 768px) {
            body {
                padding: 1rem;
            }
            
            h1 {
                font-size: 2rem;
            }
            
            .metrics-grid {
                grid-template-columns: repeat(auto-fit, minmax(150px, 1fr));
            }
            
            .theme-toggle {
                position: static;
                margin-top: 1rem;
                width: 100%;
            }
        }
    </style>
</head>
<body>
    <div class=`container`>
        <header>
            <h1>".

(** Between the h1 title and the generation timestamp (lines 482-483). *)
Definition html_subtitle_open : string :=
  lit "</h1>
            <div class=`subtitle`>Généré le ".

(** From the timestamp to the metrics cards (lines 483-490). *)
Definition html_metrics_open : string :=
  lit "</div>
            <button class=`theme-toggle` onclick=`toggleTheme()`>🌓 Changer le thème</button>
        </header>
        
        <!-- Métriques -->
        <section class=`section`>
            <h2 class=`section-title`>📊 Métriques de Performance</h2>
            ".

(** From the metrics cards to the file-name value of the metadata grid (lines 490-499). *)
Definition html_metadata_open : string :=
  lit "
        </section>
        
        <!-- Métadonnées -->
        <section class=`section`>
            <h2 class=`section-title`>ℹ️ Métadonnées</h2>
            <div class=`metadata-grid`>
                <div class=`metadata-item`>
                    <div class=`metadata-label`>Fichier Source</div>
                    <div class=`metadata-value`>".

(** Metadata grid, up to the model value (lines 499-503). *)
Definition html_metadata_model : string :=
  lit "</div>
                </div>
                <div class=`metadata-item`>
                    <div class=`metadata-label`>Modèle Whisper</div>
                    <div class=`metadata-value`>".

(** Metadata grid, up to the language value (lines 503-507). *)
Definition html_metadata_language : string :=
  lit "</div>
                </div>
                <div class=`metadata-item`>
                    <div class=`metadata-label`>Langue</div>
                    <div class=`metadata-value`>".

(** Metadata grid, up to the date value (lines 507-511). *)
Definition html_metadata_date : string :=
  lit "</div>
                </div>
                <div class=`metadata-item`>
                    <div class=`metadata-label`>Date de Transcription</div>
                    <div class=`metadata-value`>".

(** From the end of the metadata grid to the transcript text (lines 511-520). *)
Definition html_transcription_open : string :=
  lit "</div>
                </div>
            </div>
        </section>
        
        <!-- Texte complet -->
        <section class=`section`>
            <h2 class=`section-title`>📝 Transcription Complète</h2>
            <div class=`transcription-box` id=`transcription-text`>
                <button class=`copy-btn` onclick=`copyTranscription()`>📋 Copier</button>
".

(** From the transcript text to the segments slot (lines 521-526). *)
Definition html_transcription_close : string :=
  "
            </div>
        </section>
        
        <!-- Segments -->
        ".

(** Opening of the collapsible segments section. *)
Definition segments_section_open : string :=
  lit "<section class=`section`>
            <h2 class=`section-title collapsible` onclick=`toggleSection('segments')`>⏱️ Segments Détaillés</h2>
            <div class=`collapsible-content` id=`segments`>
                ".

(** Closing of the collapsible segments section. *)
Definition segments_section_close : string :=
  "
            </div>
        </section>".

(** Between the segments slot and the graphs slot (lines 531-534). *)
Definition html_graphs_comment : string :=
  "
        
        <!-- Graphiques -->
        ".

(** Opening of the collapsible graphs section. *)
Definition graphs_section_open : string :=
  lit "<section class=`section`>
            <h2 class=`section-title collapsible` onclick=`toggleSection('graphs')`>📈 Graphiques de Monitoring</h2>
            <div class=`collapsible-content` id=`graphs`>
                ".

(** Closing of the collapsible graphs section. *)
Definition graphs_section_close : string :=
  "
            </div>
        </section>".

(** From the graphs slot to the end of the document: the inline script (lines 539-575). *)
Definition html_script_tail : string :=
  "
    </div>
    
    <script>
        function toggleTheme() {
            const root = document.documentElement;
            const currentTheme = root.getAttribute('data-theme');
            const newTheme = currentTheme === 'light' ? 'dark' : 'light';
            root.setAttribute('data-theme', newTheme);
            localStorage.setItem('theme', newTheme);
        }
        
        function copyTranscription() {
            const text = document.getElementById('transcription-text').textContent;
            navigator.clipboard.writeText(text).then(() => {
                const btn = event.target;
                const originalText = btn.textContent;
                btn.textContent = '✓ Copié !';
                setTimeout(() => {
                    btn.textContent = originalText;
                }, 2000);
            });
        }
        
        function toggleSection(id) {
            const content = document.getElementById(id);
            const header = event.currentTarget;
            content.classList.toggle('active');
            header.classList.toggle('active');
        }
        
        // Charger le thème sauvegardé
        const savedTheme = localStorage.getItem('theme') || 'dark';
        document.documentElement.setAttribute('data-theme', savedTheme);
    </script>
</body>
</html>".
(** The loop that builds [segments_html] (lines 145-152). *)
Definition segments_html (segments : list Segment) : string :=
  fold_left
    (fun acc seg =>
       acc +:+ fstr
         [ lit "
            <div class=`segment`>
                <div class=`segment-time`>";
           timestamps seg;
           lit "</div>
                <div class=`segment-text`>";
           text seg;
           "</div>
            </div>
            " ])
    segments "".

(** The loop that builds [graphs_html] (lines 155-162): an entry whose
    encoding is [None] or empty adds nothing. *)
Definition graphs_html (graph_images : list (string * option string)) : string :=
  fold_left
    (fun acc item =>
       let name := fst item in
       match snd item with
       | Some base64_img =>
         if truthy_str base64_img then
           acc +:+ fstr
             [ lit "
                <div class=`graph-container`>
                    <img src=`";
               base64_img;
               lit "` alt=`";
               name;
               lit "` class=`graph-image`>
                </div>
                " ]
         else acc
       | None => acc
       end)
    graph_images "".

(** [metrics_cards] (lines 165-192). *)
Definition metrics_cards (metrics : gmap string string) : string :=
  fstr
    [ lit "
        <div class=`metrics-grid`>
            <div class=`metric-card`>
                <div class=`metric-label`>Durée Audio</div>
                <div class=`metric-value`>";
      dict_get metrics "audio_duration" "N/A";
      lit "</div>
            </div>
            <div class=`metric-card`>
                <div class=`metric-label`>Temps de Traitement</div>
                <div class=`metric-value`>";
      dict_get metrics "processing_time" "N/A";
      lit "</div>
            </div>
            <div class=`metric-card`>
                <div class=`metric-label`>Throughput</div>
                <div class=`metric-value`>";
      dict_get metrics "throughput" "N/A";
      lit "</div>
            </div>
            <div class=`metric-card`>
                <div class=`metric-label`>CPU Moyen</div>
                <div class=`metric-value`>";
      dict_get metrics "cpu_avg" "N/A";
      lit "</div>
            </div>
            <div class=`metric-card`>
                <div class=`metric-label`>RAM Moyenne</div>
                <div class=`metric-value`>";
      dict_get metrics "memory_avg" "N/A";
      lit "</div>
            </div>
            <div class=`metric-card`>
                <div class=`metric-label`>Énergie Totale</div>
                <div class=`metric-value`>";
      dict_get metrics "energy_total" "N/A";
      "</div>
            </div>
        </div>
        " ].

(** The conditional f-string of the segments slot (lines 526-531). *)
Definition segments_section (segments : list Segment) : string :=
  if truthy_list segments
  then fstr [ segments_section_open; segments_html segments; segments_section_close ]
  else "".

(** The conditional f-string of the graphs slot (lines 534-539). *)
Definition graphs_section (graph_images : list (string * option string)) : string :=
  if truthy_list graph_images
  then fstr [ graphs_section_open; graphs_html graph_images; graphs_section_close ]
  else "".

(** [_generate_html_template] (lines 120-577).  [now] is the value read by the
    single [datetime.now()] call of the template (line 483). *)
Definition _generate_html_template
    (now : datetime) (title transcription_text : string)
    (segments : list Segment) (metadata metrics : gmap string string)
    (graph_images : list (string * option string)) : string :=
  fstr
    [ html_head_open;
      title;
      html_style_and_header;
      title;
      html_subtitle_open;
      strftime "%d/%m/%Y à %H:%M:%S" now;
      html_metrics_open;
      metrics_cards metrics;
      html_metadata_open;
      dict_get metadata "filename" "N/A";
      html_metadata_model;
      dict_get metadata "model" "N/A";
      html_metadata_language;
      dict_get metadata "language" "N/A";
      html_metadata_date;
      dict_get metadata "date" "N/A";
      html_transcription_open;
      transcription_text;
      html_transcription_close;
      segments_section segments;
      html_graphs_comment;
      graphs_section graph_images;
      html_script_tail ].

(** The files [generate_report] looks at in [transcription_dir]:
    the transcript and subtitle files matching the audio name, in the order
    [glob] lists them, each with its decoded text ([None] when it cannot be
    read), the three monitoring logs and the chart images by name. *)
Record TranscriptionDir := {
  dir_path : string;
  txt_files : list (option string);
  srt_files : list (option string);
  monitoring_cpu : file DataFrame;
  monitoring_memory : file DataFrame;
  monitoring_power : file DataFrame;
  images : string -> file string
}.

(** [file.exists()]. *)
Definition exists_ {A} (f : file A) : bool :=
  match f with Absent => false | _ => true end.

(** The [metrics] dictionary of [generate_report] (lines 621-629); its values
    are evaluated in the order written. *)
Definition report_metrics (cpu_df memory_df power_df : option DataFrame)
  : result (gmap string string) :=
  cpu_avg ← match cpu_df with
            | Some df =>
              series ← df_getitem df "CPU_Usage_Percent";
              mean ← series_mean series;
              mret (fstr [ format_f 1 mean; "%" ])
            | None => mret "N/A"
            end;
  memory_avg ← match memory_df with
               | Some df =>
                 series ← df_getitem df "Memory_Usage_Percent";
                 mean ← series_mean series;
                 mret (fstr [ format_f 1 mean; "%" ])
               | None => mret "N/A"
               end;
  energy_total ← match power_df with
                 | Some df =>
                   if 0 <? df_len df then
                     series ← df_getitem df "Energy_kWh";
                     x ← iloc_last series;
                     reading ← format_cell 3 x;
                     mret (fstr [ reading; " kWh" ])
                   else mret "N/A"
                 | None => mret "N/A"
                 end;
  mret (<["audio_duration" := "N/A"]>
        (<["processing_time" := "N/A"]>
         (<["throughput" := "N/A"]>
          (<["cpu_avg" := cpu_avg]>
           (<["memory_avg" := memory_avg]>
            (<["energy_total" := energy_total]> ∅)))))).

(** The loop that loads the chart images (lines 631-636). *)
Definition load_graphs (dir : TranscriptionDir) : list (string * option string) :=
  fold_left
    (fun graph_images graph_name =>
       let graph_path := fstr [ dir_path dir; "/"; graph_name ] in
       if exists_ (images dir graph_name) then
         dict_set graph_images graph_name
                  (_image_to_base64 graph_path (images dir graph_name))
       else graph_images)
    [ "cpu_usage.png"; "memory_usage.png"; "power_usage.png" ] [].

(** The [metadata] dictionary (lines 638-644); [now] is the clock read there. *)
Definition report_metadata (audio_filename : string) (now : datetime)
  : gmap string string :=
  <["filename" := audio_filename]>
  (<["model" := "small"]>
   (<["language" := "fr"]>
    (<["date" := strftime "%d/%m/%Y %H:%M:%S" now]> ∅))).

(** The [try] block of [generate_report] from the reading of the transcript
    (line 607) to the rendered document (line 654).  The clock is read twice:
    [now_meta] for the metadata, then [now_html] inside the template. *)
Definition report_html (dir : TranscriptionDir) (audio_filename : string)
    (txt : option string) (now_meta now_html : datetime) : result string :=
  transcription_text ← match txt with
                       | Some content => mret content
                       | None => Raise ReadError
                       end;
  let segments :=
    match srt_files dir with
    | srt :: _ => _parse_srt_file srt
    | [] => []
    end in
  let cpu_df := _read_metrics_csv (monitoring_cpu dir) in
  let memory_df := _read_metrics_csv (monitoring_memory dir) in
  let power_df := _read_metrics_csv (monitoring_power dir) in
  metrics ← report_metrics cpu_df memory_df power_df;
  let graph_images := load_graphs dir in
  let metadata := report_metadata audio_filename now_meta in
  mret (_generate_html_template now_html
          (fstr [ "Rapport de Transcription - "; audio_filename ])
          transcription_text segments metadata metrics graph_images).

(** What a call leaves behind: the Boolean it returns and the file it wrote. *)
Record Outcome (A : Type) := {
  returned : bool;
  written : option A
}.
Arguments returned {A} _.
Arguments written {A} _.

Definition failure {A} : Outcome A := {| returned := false; written := None |}.
Definition success {A} (a : A) : Outcome A := {| returned := true; written := Some a |}.

(** [generate_report] (lines 579-668).  [writable] tells whether the output
    file can be opened and written. *)
Definition generate_report (dir : TranscriptionDir) (audio_filename : string)
    (now_meta now_html : datetime) (writable : bool) : Outcome string :=
  match txt_files dir with
  | [] => failure
  | txt :: _ =>
    match report_html dir audio_filename txt now_meta now_html with
    | Ok html => if writable then success html else failure
    | Raise _ => failure
    end
  end.

End HtmlReporter.
Import HtmlReporter.

(** ** [qos/reporter.py] *)

Module QoSReporter.

(** One panel of a figure: the plotted series, the horizontal reference lines
    with their legend labels, and the fixed y-range when there is one. *)
Record Panel := {
  panel_title : string;
  panel_series : list cell;
  panel_hlines : list (cell * string);
  panel_ylim : option (Z * Z)
}.

(** The [try] block of [plot_cpu_usage] (lines 52-88).  [savable] tells whether
    matplotlib draws the figure and [plt.savefig] writes the image.  The two
    statistics are written to the log after the image is saved (line 86): a
    maximum that has no float format makes the call return [False] with the
    image already there. *)
Definition plot_cpu_body (cpu_csv_file : file DataFrame) (savable : bool)
  : result (Outcome Panel) :=
  df ← read_csv cpu_csv_file;
  if df_empty df then mret failure
  else
    series ← df_getitem df "CPU_Usage_Percent";
    mean_cpu ← series_mean series;
    max_cpu ← series_max series;
    let figure :=
      {| panel_title := "Utilisation CPU - Station TV";
         panel_series := values series;
         panel_hlines :=
           [ (Num mean_cpu, fstr [ "Moyenne: "; format_f 1 mean_cpu; "%" ]) ];
         panel_ylim := Some (0, 100)%Z |} in
    if savable then
      match format_cell 1 max_cpu with
      | Ok _ => mret (success figure)
      | Raise _ => mret {| returned := false; written := Some figure |}
      end
    else Raise WriteError.

(** [plot_cpu_usage] (lines 37-92). *)
Definition plot_cpu_usage (cpu_csv_file : file DataFrame) (savable : bool)
  : Outcome Panel :=
  match plot_cpu_body cpu_csv_file savable with
  | Ok outcome => outcome
  | Raise _ => failure
  end.

(** [col in df.columns]. *)
Definition has_column (df : DataFrame) (col : string) : bool :=
  match index_of col (columns df) with Some _ => true | None => false end.

(** The [try] block of [plot_memory_usage] (lines 109-157): the percentage
    panel, and the panel in gigabytes when both of its columns are there. *)
Definition plot_memory_body (memory_csv_file : file DataFrame) (savable : bool)
  : result (Outcome (Panel * option Panel)) :=
  df ← read_csv memory_csv_file;
  if df_empty df then mret failure
  else
    series ← df_getitem df "Memory_Usage_Percent";
    mean_mem ← series_mean series;
    max_mem ← series_max series;
    let ax1 :=
      {| panel_title := "Utilisation RAM (%) - Station TV";
         panel_series := values series;
         panel_hlines :=
           [ (Num mean_mem, fstr [ "Moyenne: "; format_f 1 mean_mem; "%" ]);
             (Num (float_of_Z 90), "Seuil alerte: 90%") ];
         panel_ylim := Some (0, 100)%Z |} in
    ax2 ← (if has_column df "Memory_Used_GB" && has_column df "Memory_Total_GB"
           then
             used ← df_getitem df "Memory_Used_GB";
             total ← df_getitem df "Memory_Total_GB";
             total0 ← iloc_first total;
             label ← format_cell 1 total0;
             mret (Some {| panel_title := "Utilisation RAM (Go) - Station TV";
                           panel_series := values used;
                           panel_hlines :=
                             [ (total0, fstr [ "RAM totale: "; label; " Go" ]) ];
                           panel_ylim := None |})
           else mret None);
    if savable then
      match format_cell 1 max_mem with
      | Ok _ => mret (success (ax1, ax2))
      | Raise _ => mret {| returned := false; written := Some (ax1, ax2) |}
      end
    else Raise WriteError.

(** [plot_memory_usage] (lines 94-161). *)
Definition plot_memory_usage (memory_csv_file : file DataFrame) (savable : bool)
  : Outcome (Panel * option Panel) :=
  match plot_memory_body memory_csv_file savable with
  | Ok outcome => outcome
  | Raise _ => failure
  end.

(** What a sequence of [f.write] calls leaves in the file: the arguments
    written before the first one whose evaluation raises, and that
    exception. *)
Fixpoint run_writes (steps : list (result string)) : list string * option exn :=
  match steps with
  | [] => ([], None)
  | Ok text :: rest =>
    let (done, e) := run_writes rest in (text :: done, e)
  | Raise e :: _ => ([], Some e)
  end.

(** The throughput objective (lines 206-212): the line written, or the
    exception of a comparison. *)
Definition throughput_objective (throughput : pyval) : result string :=
  fast ← py_ge throughput (PInt 5);
  if (fast : bool) then
    Ok ("✓ Throughput ≥ 5× (modèle small) : ATTEINT" +:+ NL)
  else
    slow ← py_ge throughput (PInt 1);
    if (slow : bool) then
      Ok ("✓ Throughput ≥ 1× (modèle medium) : ATTEINT" +:+ NL)
    else
      Ok ("✗ Throughput insuffisant" +:+ NL).

(** The success-rate objective (lines 214-218). *)
Definition success_objective (success_rate : pyval) : result string :=
  met ← py_ge success_rate (PFloat (dbl 99 100));
  if (met : bool) then
    Ok ("✓ Taux de réussite ≥ 99% : ATTEINT" +:+ NL)
  else
    product ← times100 success_rate;
    percent ← py_format_f 1 product;
    Ok (fstr [ "⚠ Taux de réussite "; percent; "% < 99%"; NL ]).

Section Summary.

(** [str] of a [float] (its shortest decimal form that reads back), used where
    a dictionary value is written with no format specification. *)
Variable float_repr : pyfloat -> string.

(** [str(v)]. *)
Definition py_str (v : pyval) : string :=
  match v with
  | PInt z => str_of_Z z
  | PFloat x => float_repr x
  | PBool b => if b then "True" else "False"
  | PNone => "None"
  | PStr s => s
  end.

(** The arguments of the successive [f.write] calls of
    [generate_summary_report] (lines 185-220), each with the exception its
    evaluation may raise. *)
Definition summary_steps (metrics_summary : gmap string pyval)
  : list (result string) :=
  let get key := dict_get metrics_summary key (PInt 0) in
  [ Ok (py_repeat "=" 80 +:+ NL);
    Ok ("RAPPORT QoS - STATION TV - TRANSCRIPTION AUDIO" +:+ NL);
    Ok (py_repeat "=" 80 +:+ NLNL);
    Ok ("RÉSUMÉ DE LA SESSION" +:+ NL);
    Ok (py_repeat "-" 80 +:+ NL);
    (hours ← py_format_f 2 (get "session_duration_hours");
     mret (fstr [ "Durée de la session: "; hours; " heures"; NL ]));
    Ok (fstr [ "Nombre total de fichiers: "; py_str (get "total_files"); NL ]);
    Ok (fstr [ "Fichiers réussis: "; py_str (get "successful_files"); NL ]);
    Ok (fstr [ "Fichiers échoués: "; py_str (get "failed_files"); NL ]);
    (product ← times100 (get "success_rate");
     percent ← py_format_f 1 product;
     mret (fstr [ "Taux de réussite: "; percent; "%"; NLNL ]));
    Ok ("PERFORMANCE" +:+ NL);
    Ok (py_repeat "-" 80 +:+ NL);
    (hours ← py_format_f 2 (get "total_audio_duration_hours");
     mret (fstr [ "Durée audio totale traitée: "; hours; " heures"; NL ]));
    (hours ← py_format_f 2 (get "total_processing_time_hours");
     mret (fstr [ "Temps de traitement total: "; hours; " heures"; NL ]));
    (ratio ← py_format_f 2 (get "throughput");
     mret (fstr [ "Throughput (débit): "; ratio; "× temps réel"; NL ]));
    (seconds ← py_format_f 2 (get "average_processing_time_seconds");
     mret (fstr [ "Temps moyen par fichier: "; seconds; " secondes"; NLNL ]));
    Ok ("OBJECTIFS QoS" +:+ NL);
    Ok (py_repeat "-" 80 +:+ NL);
    throughput_objective (get "throughput");
    success_objective (get "success_rate");
    Ok (NL +:+ py_repeat "=" 80 +:+ NL) ].

(** [generate_summary_report] (lines 163-227).  [writable] tells whether the
    output file can be opened and written.  An exception raised inside the
    [with] block leaves the file with what was written before it. *)
Definition generate_summary_report (metrics_summary : gmap string pyval)
    (writable : bool) : Outcome string :=
  if writable then
    match run_writes (summary_steps metrics_summary) with
    | (done, None) => success (fstr done)
    | (done, Some _) => {| returned := false; written := Some (fstr done) |}
    end
  else failure.

End Summary.

End QoSReporter.
Import QoSReporter.

(** ** The specification's reading of the data *)

Module Spec.

Definition nonempty (line : string) : bool :=
  match line with "" => false | String _ _ => true end.

(** The non-empty lines of a block after trimming. *)
Definition block_lines (block : string) : list string :=
  List.filter nonempty (py_split NL (py_strip block)).

(** A block qualifies when it has at least three such lines. *)
Definition qualifies (block : string) : bool := 3 <=? length (block_lines block).

(** Line 1 is the index, line 2 the time range, and the remaining lines joined
    with a single space are the text. *)
Definition segment_of_block (block : string) : Segment :=
  {| index := nth 0 (block_lines block) "";
     timestamps := nth 1 (block_lines block) "";
     text := py_join " " (skipn 2 (block_lines block)) |}.

(** The parser as the specification words it: one segment per qualifying
    block, in the order of the blocks. *)
Definition parse_srt_spec (content : string) : list Segment :=
  map segment_of_block
      (List.filter qualifies (py_split NLNL (py_strip content))).

(** One card of the metrics grid. *)
Definition metric_card (label value : string) : string :=
  fstr [ lit "<div class=`metric-card`>
                <div class=`metric-label`>"; label; lit "</div>
                <div class=`metric-value`>"; value; "</div>
            </div>" ].

(** The grid: its cards, one per line. *)
Definition metrics_grid (cards : list (string * string)) : string :=
  fstr [ lit "
        <div class=`metrics-grid`>
            ";
         py_join "
            " (map (fun card => metric_card (fst card) (snd card)) cards);
         "
        </div>
        " ].

(** The six cards of a report, in their order. *)
Definition six_cards (metrics : gmap string string) : list (string * string) :=
  [ ("Durée Audio", dict_get metrics "audio_duration" "N/A");
    ("Temps de Traitement", dict_get metrics "processing_time" "N/A");
    ("Throughput", dict_get metrics "throughput" "N/A");
    ("CPU Moyen", dict_get metrics "cpu_avg" "N/A");
    ("RAM Moyenne", dict_get metrics "memory_avg" "N/A");
    ("Énergie Totale", dict_get metrics "energy_total" "N/A") ].

(** The container of one embedded image. *)
Definition graph_container (name base64_img : string) : string :=
  fstr [ lit "
                <div class=`graph-container`>
                    <img src=`"; base64_img; lit "` alt=`"; name;
         lit "` class=`graph-image`>
                </div>
                " ].

(** The entries of the image dictionary that carry an encoding. *)
Definition encoded_images (graph_images : list (string * option string))
  : list (string * string) :=
  flat_map (fun item =>
              match snd item with
              | Some base64_img =>
                if truthy_str base64_img then [(fst item, base64_img)] else []
              | None => []
              end)
           graph_images.

(** The markup of one segment. *)
Definition segment_markup (seg : Segment) : string :=
  fstr [ lit "
            <div class=`segment`>
                <div class=`segment-time`>"; timestamps seg; lit "</div>
                <div class=`segment-text`>"; text seg; "</div>
            </div>
            " ].

(** A monitoring log that the report cannot use: missing, or unreadable. *)
Definition unavailable (f : file DataFrame) : bool :=
  match f with Content _ => false | _ => true end.

(** A monitoring log that was parsed and has no column [col]. *)
Definition lacks_column (f : file DataFrame) (col : string) : bool :=
  match f with Content df => negb (has_column df col) | _ => false end.

(** A monitoring log that was parsed and has at least one row. *)
Definition has_rows (f : file DataFrame) : bool :=
  match f with Content df => 0 <? df_len df | _ => false end.

(** The series a chart is drawn from is empty: the log cannot be read, or it
    holds no data row. *)
Definition empty_series (f : file DataFrame) : bool :=
  match f with Content df => df_len df =? 0 | _ => true end.

(** Some parsed log lacks the column its metric is read from (the power log
    is only read when it has rows). *)
Definition column_missing (cpu memory power : file DataFrame) : bool :=
  lacks_column cpu "CPU_Usage_Percent"
  || lacks_column memory "Memory_Usage_Percent"
  || (has_rows power && lacks_column power "Energy_kWh").

(** The keys of a metrics snapshot. *)
Definition snapshot_keys : list string :=
  [ "audio_duration"; "processing_time"; "throughput";
    "cpu_avg"; "memory_avg"; "energy_total" ].

(** A mean written as a percentage with one decimal. *)
Definition percent (mean : pyfloat) : string := fstr [ format_f 1 mean; "%" ].

(** An energy reading written in kWh with three decimals. *)
Definition kwh (x : pyfloat) : string := fstr [ format_f 3 x; " kWh" ].

(** The metrics dictionary with the three computed fields given. *)
Definition snapshot (cpu_avg memory_avg energy_total : string) : gmap string string :=
  <["audio_duration" := "N/A"]>
  (<["processing_time" := "N/A"]>
   (<["throughput" := "N/A"]>
    (<["cpu_avg" := cpu_avg]>
     (<["memory_avg" := memory_avg]>
      (<["energy_total" := energy_total]> ∅))))).

(** What an averaged field holds for a log as [_read_metrics_csv] returns it:
    the marker, or the mean that pandas answers for the column. *)
Definition avg_value (df : option DataFrame) (col value : string) : Prop :=
  match df with
  | None => value = "N/A"
  | Some d =>
    exists series mean,
      df_getitem d col = Ok series /\ series_mean series = Ok mean
      /\ value = percent mean
  end.

(** What the energy field holds: the marker, or the last cell of the column,
    which is a number. *)
Definition energy_value (df : option DataFrame) (value : string) : Prop :=
  match df with
  | None => value = "N/A"
  | Some d =>
    if 0 <? df_len d then
      exists series x, df_getitem d "Energy_kWh" = Ok series
                       /\ last (values series) = Some (Num x) /\ value = kwh x
    else value = "N/A"
  end.

(** The three fields of the metrics dictionary, as [generate_report] computes
    them one after the other. *)
Definition avg_field (df : option DataFrame) (col : string) : result string :=
  match df with
  | Some df =>
    series ← df_getitem df col;
    mean ← series_mean series;
    mret (fstr [ format_f 1 mean; "%" ])
  | None => mret "N/A"
  end.

Definition energy_field (df : option DataFrame) : result string :=
  match df with
  | Some df =>
    if 0 <? df_len df then
      series ← df_getitem df "Energy_kWh";
      x ← iloc_last series;
      reading ← format_cell 3 x;
      mret (fstr [ reading; " kWh" ])
    else mret "N/A"
  | None => mret "N/A"
  end.

(** The average of a log can be computed: the log is missing or unreadable,
    or it has the column and pandas answers its mean. *)
Definition average_computable (f : file DataFrame) (col : string) : bool :=
  match f with
  | Content df =>
    match df_getitem df col with
    | Ok series =>
      match series_mean series with Ok _ => true | Raise _ => false end
    | Raise _ => false
    end
  | _ => true
  end.

(** The energy of a power log can be computed: the log is missing, unreadable
    or without rows, or it has the column and its last cell is a number. *)
Definition energy_computable (f : file DataFrame) : bool :=
  match f with
  | Content df =>
    if 0 <? df_len df then
      match df_getitem df "Energy_kWh" with
      | Ok series =>
        match last (values series) with Some (Num _) => true | _ => false end
      | Raise _ => false
      end
    else true
  | _ => true
  end.








(** The keys of a session summary. *)
Definition summary_keys : list string :=
  [ "session_duration_hours"; "total_files"; "successful_files"; "failed_files";
    "success_rate"; "total_audio_duration_hours"; "total_processing_time_hours";
    "throughput"; "average_processing_time_seconds" ].


(** An [int] that converts to a double. *)
Definition in_float_range (z : Z) : bool :=
  match float_of_Z z with S754_infinity _ => false | _ => true end.

(** A value that a float format writes: a float, a bool, or an int within the
    range of the doubles. *)
Definition formattable (v : pyval) : bool :=
  match v with
  | PInt z => in_float_range z
  | PFloat _ | PBool _ => true
  | PNone | PStr _ => false
  end.







End Spec.
Import Spec.

(** ** Shapes of strings, for the proofs about the parser *)

Module Shape.

(** [s] starts with a newline. *)
Definition starts_nl (s : string) : bool :=
  match s with String c _ => Ascii.eqb c nl | "" => false end.

(** [s] ends with a newline. *)
Fixpoint ends_nl (s : string) : bool :=
  match s with
  | "" => false
  | String c "" => Ascii.eqb c nl
  | String _ s' => ends_nl s'
  end.

(** [s] holds two newlines in a row. *)
Fixpoint has_nlnl (s : string) : bool :=
  match s with
  | String a s' => (Ascii.eqb a nl && starts_nl s') || has_nlnl s'
  | "" => false
  end.

End Shape.
Import Shape.

(** ** Concrete inputs *)

Module Examples.

Definition noon : datetime :=
  {| year := 2025; month := 3; day := 7; hour := 12; minute := 0; second := 5 |}.

Definition later : datetime :=
  {| year := 2025; month := 3; day := 7; hour := 12; minute := 0; second := 6 |}.

Definition no_image (name : string) : file string := Absent.

(** A directory with a transcript and nothing else. *)
Definition bare_dir : TranscriptionDir :=
  {| dir_path := "output/transcriptions";
     txt_files := [ Some "Bonjour le monde" ];
     srt_files := [];
     monitoring_cpu := Absent;
     monitoring_memory := Absent;
     monitoring_power := Absent;
     images := no_image |}.

(** The answers of pandas for the columns of a log. *)
Definition answers {A} (table : list (string * A)) (col : string) : result A :=
  match List.find (fun entry => String.eqb (fst entry) col) table with
  | Some entry => Ok (snd entry)
  | None => Raise (KeyError col)
  end.

Definition int_cell (z : Z) : cell := Num (float_of_Z z).

(** Three samples at 10, 20 and 30 percent. *)
Definition cpu_log : DataFrame :=
  {| columns := [ "Timestamp"; "CPU_Usage_Percent" ];
     rows := [ [ int_cell 0; int_cell 10 ];
               [ int_cell 1; int_cell 20 ];
               [ int_cell 2; int_cell 30 ] ];
     mean_of := answers [ ("Timestamp", float_of_Z 1);
                          ("CPU_Usage_Percent", float_of_Z 20) ];
     max_of := answers [ ("Timestamp", int_cell 2);
                         ("CPU_Usage_Percent", int_cell 30) ] |}.

Definition power_log : DataFrame :=
  {| columns := [ "Timestamp"; "Power_W"; "Energy_kWh" ];
     rows := [ [ int_cell 0; int_cell 65; Num (dbl 1 1000) ];
               [ int_cell 1; int_cell 70; Num (dbl 25 1000) ] ];
     mean_of := answers [ ("Timestamp", dbl 1 2);
                          ("Power_W", dbl 135 2);
                          ("Energy_kWh", dbl 13 1000) ];
     max_of := answers [ ("Timestamp", int_cell 1);
                         ("Power_W", int_cell 70);
                         ("Energy_kWh", Num (dbl 25 1000)) ] |}.

(** Two samples at 68.8 and 79.9 percent: pandas answers the double
    [(68.8 + 79.9) / 2], which lies just below 74.35. *)
Definition memory_log : DataFrame :=
  {| columns := [ "Timestamp"; "Memory_Usage_Percent" ];
     rows := [ [ int_cell 0; Num (dbl 688 10) ]; [ int_cell 1; Num (dbl 799 10) ] ];
     mean_of := answers [ ("Timestamp", dbl 1 2);
                          ("Memory_Usage_Percent",
                           fdiv (SFadd prec emax (dbl 688 10) (dbl 799 10))
                                (float_of_Z 2)) ];
     max_of := answers [ ("Timestamp", int_cell 1);
                         ("Memory_Usage_Percent", Num (dbl 799 10)) ] |}.

(** A memory log with rows whose usage column has another name. *)
Definition memory_log_renamed : DataFrame :=
  {| columns := [ "Timestamp"; "Memory_Percent" ];
     rows := [ [ int_cell 0; int_cell 41 ]; [ int_cell 1; int_cell 43 ] ];
     mean_of := answers [ ("Timestamp", dbl 1 2); ("Memory_Percent", float_of_Z 42) ];
     max_of := answers [ ("Timestamp", int_cell 1); ("Memory_Percent", int_cell 43) ] |}.

(** A CPU log with rows whose usage column has another name. *)
Definition cpu_log_renamed : DataFrame :=
  {| columns := [ "Timestamp"; "CPU_Percent" ];
     rows := [ [ int_cell 0; int_cell 10 ]; [ int_cell 1; int_cell 20 ] ];
     mean_of := answers [ ("Timestamp", dbl 1 2); ("CPU_Percent", float_of_Z 15) ];
     max_of := answers [ ("Timestamp", int_cell 1); ("CPU_Percent", int_cell 20) ] |}.

(** A CPU log whose usage column holds a text: pandas has no mean for it, and
    its maximum raises as well. *)
Definition cpu_log_text : DataFrame :=
  {| columns := [ "Timestamp"; "CPU_Usage_Percent" ];
     rows := [ [ int_cell 0; Text "10" ]; [ int_cell 1; Text "n/a" ] ];
     mean_of := fun col => if String.eqb col "Timestamp" then Ok (dbl 1 2)
                           else Raise TypeError;
     max_of := fun col => if String.eqb col "Timestamp" then Ok (int_cell 1)
                          else Raise TypeError |}.

(** A power log whose last energy reading is a text. *)
Definition power_log_text : DataFrame :=
  {| columns := [ "Timestamp"; "Energy_kWh" ];
     rows := [ [ int_cell 0; Text "0.001" ]; [ int_cell 1; Text "n/a" ] ];
     mean_of := fun col => if String.eqb col "Timestamp" then Ok (dbl 1 2)
                           else Raise TypeError;
     max_of := fun col => if String.eqb col "Timestamp" then Ok (int_cell 1)
                          else Raise TypeError |}.

(** A good CPU log beside a memory log that lacks its column. *)
Definition dir_memory_renamed : TranscriptionDir :=
  {| dir_path := "output/transcriptions";
     txt_files := [ Some "Bonjour le monde" ];
     srt_files := [];
     monitoring_cpu := Content cpu_log;
     monitoring_memory := Content memory_log_renamed;
     monitoring_power := Absent;
     images := no_image |}.

(** A CPU log that lacks its column, and no other log. *)
Definition dir_cpu_renamed : TranscriptionDir :=
  {| dir_path := "output/transcriptions";
     txt_files := [ Some "Bonjour le monde" ];
     srt_files := [];
     monitoring_cpu := Content cpu_log_renamed;
     monitoring_memory := Absent;
     monitoring_power := Absent;
     images := no_image |}.

(** A CPU log and a power log, the memory log unreadable. *)
Definition dir_two_logs : TranscriptionDir :=
  {| dir_path := "output/transcriptions";
     txt_files := [ Some "Bonjour le monde" ];
     srt_files := [];
     monitoring_cpu := Content cpu_log;
     monitoring_memory := Unreadable;
     monitoring_power := Content power_log;
     images := no_image |}.

(** The CPU chart exists and cannot be read; the other charts are missing. *)
Definition dir_broken_chart : TranscriptionDir :=
  {| dir_path := "output/transcriptions";
     txt_files := [ Some "Bonjour le monde" ];
     srt_files := [];
     monitoring_cpu := Absent;
     monitoring_memory := Absent;
     monitoring_power := Absent;
     images := fun name =>
                 if String.eqb name "cpu_usage.png" then Unreadable else Absent |}.

(** The document written for a directory, or the empty string. *)
Definition report_of (dir : TranscriptionDir) (audio_filename : string) : string :=
  default "" (written (generate_report dir audio_filename noon later true)).

(** A log with its header and no data row: the mean and the maximum of an
    empty column are [nan]. *)
Definition header_only : DataFrame :=
  {| columns := [ "Timestamp"; "CPU_Usage_Percent" ];
     rows := [];
     mean_of := fun _ => Ok NaN;
     max_of := fun _ => Ok (Num NaN) |}.

(** [str] of a float, for the examples: the summaries below hold integers
    where a value is written without a format specification. *)
Definition repr_unused (x : pyfloat) : string := format_f 1 x.




(** Half of the files failed, at a throughput of 4.9. *)
Definition summary_half_failed : gmap string pyval :=
  <["throughput" := PFloat (dbl 49 10)]>
  (<["success_rate" := PFloat (dbl 1 2)]> ∅).

End Examples.
Import Examples.

(** ** Further vocabulary for the properties *)

Module Vocabulary.

(** [c in s]. *)
Fixpoint has_char (c : ascii) (s : string) : bool :=
  match s with
  | "" => false
  | String a s' => Ascii.eqb a c || has_char c s'
  end.

(** Every character of [s] satisfies [p]. *)
Fixpoint all_chars (p : ascii -> bool) (s : string) : bool :=
  match s with
  | "" => true
  | String a s' => p a && all_chars p s'
  end.

(** The alphabet of base64 and its padding sign. *)
Definition is_b64_char (c : ascii) : bool :=
  ((65 <=? code c) && (code c <=? 90)
   || (97 <=? code c) && (code c <=? 122)
   || (48 <=? code c) && (code c <=? 57)
   || (code c =? 43) || (code c =? 47) || (code c =? 61))%N.

(** The chart files [generate_report] looks for, in the order of its loop
    (line 633). *)
Definition graph_names : list string :=
  [ "cpu_usage.png"; "memory_usage.png"; "power_usage.png" ].


(** No subtitle file matches the audio name, or the first match cannot be
    read. *)
Definition no_subtitles (dir : TranscriptionDir) : bool :=
  match srt_files dir with
  | [] => true
  | None :: _ => true
  | Some _ :: _ => false
  end.

(** The transcript of the first matching text file, when it can be read. *)
Definition transcript (dir : TranscriptionDir) : option string :=
  match txt_files dir with
  | Some content :: _ => Some content
  | _ => None
  end.

(** The segments of the first matching subtitle file. *)
Definition subtitles (dir : TranscriptionDir) : list Segment :=
  match srt_files dir with
  | srt :: _ => _parse_srt_file srt
  | [] => []
  end.

(** A memory log with the percentage and the two columns in gigabytes. *)
Definition memory_log_gb : DataFrame :=
  {| columns := [ "Timestamp"; "Memory_Usage_Percent";
                  "Memory_Used_GB"; "Memory_Total_GB" ];
     rows := [ [ int_cell 0; int_cell 40; Num (dbl 64 10); int_cell 16 ];
               [ int_cell 1; int_cell 50; int_cell 8; int_cell 16 ] ];
     mean_of := answers [ ("Timestamp", dbl 1 2);
                          ("Memory_Usage_Percent", float_of_Z 45);
                          ("Memory_Used_GB", dbl 72 10);
                          ("Memory_Total_GB", float_of_Z 16) ];
     max_of := answers [ ("Timestamp", int_cell 1);
                         ("Memory_Usage_Percent", int_cell 50);
                         ("Memory_Used_GB", int_cell 8);
                         ("Memory_Total_GB", int_cell 16) ] |}.

(** A session of twelve files, one of which failed. *)
Definition session : gmap string pyval :=
  <["total_files" := PInt 12]>
  (<["successful_files" := PInt 11]>
   (<["failed_files" := PInt 1]>
    (<["success_rate" := PFloat (dbl 11 12)]>
     (<["throughput" := PFloat (dbl 62 10)]> ∅)))).

(** The maximum of a column is a number. *)
Definition numeric_max (series : Series) : bool :=
  match series_max series with Ok (Num _) => true | _ => false end.

End Vocabulary.
Import Vocabulary.

(** * Properties *)

(** ** Strings *)

Lemma app_nil_r_s (s : string) : s +:+ "" = s.
Proof. induction s; simpl; f_equal; auto. Qed.

Lemma app_assoc_s (a b c : string) : (a +:+ b) +:+ c = a +:+ b +:+ c.
Proof. induction a; simpl; f_equal; auto. Qed.

Lemma has_nlnl_app (a b : string) :
  has_nlnl (a +:+ b) = false -> has_nlnl a = false /\ has_nlnl b = false.
Proof.
  induction a as [|c a IH]; simpl; [auto|].
  intros H. apply orb_false_iff in H as [H1 H2].
  destruct (IH H2) as [Ha Hb]. split; [|exact Hb].
  rewrite Ha, orb_false_r.
  destruct (Ascii.eqb c nl); [|reflexivity]. simpl in *.
  destruct a; simpl in *; [reflexivity|exact H1].
Qed.

Lemma starts_nl_app (a b : string) :
  a <> "" -> starts_nl (a +:+ b) = starts_nl a.
Proof. destruct a; simpl; congruence. Qed.

Lemma not_space_not_nl c : ascii_space c = false -> Ascii.eqb c nl = false.
Proof.
  intros H. destruct (Ascii.eqb c nl) eqn:E; [|reflexivity].
  apply Ascii.eqb_eq in E. subst. discriminate.
Qed.

Lemma lstrip_suffix_n (n : nat) :
  forall s, String.length s <= n -> exists w, s = w +:+ lstrip s.
Proof.
  induction n as [|n IH]; intros s Hn.
  - destruct s; simpl in *; [exists ""; reflexivity|lia].
  - destruct s as [|c s1]; [exists ""; reflexivity|].
    simpl in Hn. simpl.
    destruct (ascii_space c).
    { destruct (IH s1) as [w Hw]; [lia|]. exists (String c w). simpl. congruence. }
    destruct s1 as [|d s2]; [exists ""; reflexivity|]. simpl in Hn.
    destruct (two_byte_space c d).
    { destruct (IH s2) as [w Hw]; [lia|]. exists (String c (String d w)). simpl. congruence. }
    destruct s2 as [|e s3]; [exists ""; reflexivity|]. simpl in Hn.
    destruct (three_byte_space c d e).
    { destruct (IH s3) as [w Hw]; [lia|].
      exists (String c (String d (String e w))). simpl. congruence. }
    exists ""; reflexivity.
Qed.

Lemma lstrip_no_nl_n (n : nat) :
  forall s, String.length s <= n -> starts_nl (lstrip s) = false.
Proof.
  induction n as [|n IH]; intros s Hn.
  - destruct s; simpl in *; [reflexivity|lia].
  - destruct s as [|c s1]; [reflexivity|].
    simpl in Hn. simpl.
    destruct (ascii_space c) eqn:Ec; [apply IH; lia|].
    apply not_space_not_nl in Ec.
    destruct s1 as [|d s2]; [exact Ec|]. simpl in Hn.
    destruct (two_byte_space c d); [apply IH; lia|].
    destruct s2 as [|e s3]; [exact Ec|]. simpl in Hn.
    destruct (three_byte_space c d e); [apply IH; lia|exact Ec].
Qed.

Lemma rstrip_cons (c : ascii) (s : string) :
  rstrip (String c s)
  = if is_ws_token (String c (rstrip s)) then "" else String c (rstrip s).
Proof. reflexivity. Qed.

Lemma rstrip_prefix (s : string) : exists w, s = rstrip s +:+ w.
Proof.
  induction s as [|c s [w IH]]; [exists ""; reflexivity|].
  rewrite rstrip_cons. destruct (is_ws_token (String c (rstrip s))).
  - exists (String c s). reflexivity.
  - exists w. simpl. congruence.
Qed.

Lemma rstrip_no_nl (s : string) : ends_nl (rstrip s) = false.
Proof.
  induction s as [|c s IH]; [reflexivity|].
  rewrite rstrip_cons.
  destruct (is_ws_token (String c (rstrip s))) eqn:E; [reflexivity|].
  destruct (rstrip s) as [|d r] eqn:Er.
  - simpl in *. apply not_space_not_nl. exact E.
  - exact IH.
Qed.

Lemma strip_facts (s : string) :
  has_nlnl s = false ->
  starts_nl (py_strip s) = false /\ ends_nl (py_strip s) = false
  /\ has_nlnl (py_strip s) = false.
Proof.
  intros H. unfold py_strip.
  destruct (lstrip_suffix_n _ s (le_n _)) as [w Hw].
  destruct (rstrip_prefix (lstrip s)) as [v Hv].
  pose proof (lstrip_no_nl_n _ s (le_n _)) as Hl.
  split; [|split].
  - destruct (rstrip (lstrip s)) eqn:E; [reflexivity|].
    rewrite Hv in Hl. rewrite starts_nl_app in Hl; [exact Hl|discriminate].
  - apply rstrip_no_nl.
  - rewrite Hw in H. apply has_nlnl_app in H as [_ H].
    rewrite Hv in H. apply has_nlnl_app in H as [H _]. exact H.
Qed.



Lemma strip_prefix_length (p s r : string) :
  strip_prefix p s = Some r -> String.length s = String.length p + String.length r.
Proof.
  revert s; induction p as [|a p IH]; intros s H; simpl in *.
  - congruence.
  - destruct s as [|b s]; [discriminate|].
    destruct (Ascii.eqb a b); [|discriminate].
    simpl. f_equal. auto.
Qed.

Lemma strip_prefix_NL (s r : string) :
  strip_prefix NL s = Some r <-> s = String nl r.
Proof.
  unfold NL. cbn [strip_prefix]. destruct s as [|b s]; [split; discriminate|].
  destruct (Ascii.eqb nl b) eqn:E.
  - apply Ascii.eqb_eq in E. subst b. split; congruence.
  - apply Ascii.eqb_neq in E. split; congruence.
Qed.

Lemma strip_prefix_NLNL_none (s : string) :
  strip_prefix NLNL s = None -> starts_nl s && match s with String _ s' => starts_nl s' | "" => false end = false.
Proof.
  unfold NLNL, NL.
  destruct s as [|b s]; [reflexivity|]. cbn [strip_prefix starts_nl].
  rewrite (Ascii.eqb_sym b nl). destruct (Ascii.eqb nl b); [|reflexivity].
  destruct s as [|c s]; [reflexivity|]. cbn [strip_prefix starts_nl andb].
  rewrite (Ascii.eqb_sym c nl). destruct (Ascii.eqb nl c); [discriminate|reflexivity].
Qed.

Lemma split_fuel_S (n : nat) (sep s : string) :
  split_fuel (S n) sep s
  = match strip_prefix sep s with
    | Some rest => "" :: split_fuel n sep rest
    | None =>
      match s with
      | "" => [""]
      | String c s' => cons_head c (split_fuel n sep s')
      end
    end.
Proof. reflexivity. Qed.

Lemma split_head_starts (n : nat) (sep s : string) :
  starts_nl (hd "" (split_fuel (S n) sep s)) = true -> starts_nl s = true.
Proof.
  rewrite split_fuel_S. destruct (strip_prefix sep s); [discriminate|].
  destruct s as [|c s]; [discriminate|].
  destruct (split_fuel n sep s); exact (fun H => H).
Qed.

Lemma split_nlnl_pieces (n : nat) :
  forall s, String.length s < n ->
            Forall (fun p => has_nlnl p = false) (split_fuel n NLNL s).
Proof.
  induction n as [|n IH]; intros s Hn; [lia|].
  rewrite split_fuel_S. destruct (strip_prefix NLNL s) as [rest|] eqn:E.
  - apply strip_prefix_length in E. simpl in E.
    constructor; [reflexivity|]. apply IH. lia.
  - apply strip_prefix_NLNL_none in E.
    destruct s as [|c s]; [repeat constructor|].
    simpl in Hn.
    assert (Hs : String.length s < n \/ s = "") by (destruct s; [right; reflexivity|left; simpl in *; lia]).
    destruct Hs as [Hs| ->].
    + pose proof (IH s Hs) as HF.
      destruct n as [|n']; [lia|].
      pose proof (split_head_starts n' NLNL s) as Hh.
      destruct (split_fuel (S n') NLNL s) as [|p ps]; simpl.
      * repeat constructor. simpl. rewrite andb_false_r. reflexivity.
      * inversion HF; subst. constructor; [|assumption].
        simpl in *. rewrite H1, orb_false_r.
        destruct (Ascii.eqb c nl); [|reflexivity]. simpl in *.
        destruct (starts_nl p); [|reflexivity].
        rewrite Hh in E by reflexivity. discriminate.
    + destruct n; simpl; repeat constructor; simpl; rewrite andb_false_r; reflexivity.
Qed.

Lemma split_lines_nonempty (n : nat) :
  forall s, String.length s < n ->
            ends_nl s = false -> has_nlnl s = false ->
            Forall (fun l => nonempty l = true) (tl (split_fuel n NL s))
            /\ (s <> "" -> starts_nl s = false ->
                Forall (fun l => nonempty l = true) (split_fuel n NL s)).
Proof.
  induction n as [|n IH]; intros s Hn He Hh; [lia|].
  rewrite split_fuel_S. destruct (strip_prefix NL s) as [rest|] eqn:E.
  - apply strip_prefix_NL in E. subst s. simpl in Hn.
    assert (Hr : rest <> "") by (intros ->; discriminate).
    cbn [has_nlnl] in Hh. rewrite Ascii.eqb_refl in Hh.
    apply orb_false_iff in Hh as [Hs Hh]. cbn [andb] in Hs.
    assert (He' : ends_nl rest = false) by (destruct rest; [congruence|exact He]).
    destruct (IH rest ltac:(lia) He' Hh) as [_ HA].
    split; [simpl; auto|].
    intros _ Hst. cbn [starts_nl] in Hst. rewrite Ascii.eqb_refl in Hst. discriminate.
  - destruct s as [|c s]; [split; [constructor|congruence]|].
    simpl in Hn.
    assert (He' : ends_nl s = false) by (destruct s; [reflexivity|exact He]).
    simpl in Hh. apply orb_false_iff in Hh as [_ Hh].
    assert (HB : Forall (fun l => nonempty l = true) (tl (split_fuel n NL s))).
    { destruct s as [|d s'].
      - destruct n; simpl; constructor.
      - apply IH; [simpl in *; lia|assumption..]. }
    destruct (split_fuel n NL s) as [|p ps]; simpl in *.
    + split; [constructor|]. intros _ _. repeat constructor.
    + split; [exact HB|]. intros _ _. constructor; [reflexivity|exact HB].
Qed.

Lemma lines_of_block (b : string) :
  has_nlnl b = false ->
  py_split NL (py_strip b) = [""]
  \/ Forall (fun l => nonempty l = true) (py_split NL (py_strip b)).
Proof.
  intros H. destruct (strip_facts b H) as (Hs & He & Hh).
  destruct (py_strip b) as [|c t] eqn:Et; [left; reflexivity|right].
  destruct (split_lines_nonempty _ (String c t) (Nat.lt_succ_diag_r _) He Hh)
    as [_ HA].
  apply HA; [discriminate|exact Hs].
Qed.

Lemma filter_all_true {A} (f : A -> bool) (l : list A) :
  Forall (fun x => f x = true) l -> List.filter f l = l.
Proof.
  induction 1 as [|x l Hx _ IH]; simpl; [reflexivity|]. rewrite Hx, IH. reflexivity.
Qed.

Lemma block_lines_eq (b : string) :
  has_nlnl b = false ->
  (py_split NL (py_strip b) = [""] /\ block_lines b = [])
  \/ block_lines b = py_split NL (py_strip b).
Proof.
  intros H. unfold block_lines. destruct (lines_of_block b H) as [E|F].
  - left. rewrite E. split; reflexivity.
  - right. apply filter_all_true. exact F.
Qed.

Lemma fold_left_cond_snoc {A B} (q : A -> bool) (f : A -> B) (l : list A) (acc : list B) :
  fold_left (fun segs x => if q x then segs ++ [f x] else segs) l acc
  = acc ++ map f (List.filter q l).
Proof.
  revert acc; induction l as [|x l IH]; intros acc; simpl.
  - rewrite app_nil_r. reflexivity.
  - rewrite IH. destruct (q x); simpl; [rewrite <- app_assoc|]; reflexivity.
Qed.


Lemma map_filter_ext {A B} (P : A -> Prop) (q q' : A -> bool) (f f' : A -> B) (l : list A) :
  Forall P l ->
  (forall x, P x -> q x = q' x /\ (q x = true -> f x = f' x)) ->
  map f (List.filter q l) = map f' (List.filter q' l).
Proof.
  intros HF H. induction HF as [|x l Hx _ IH]; [reflexivity|].
  destruct (H x Hx) as [Hq Hf]. cbn [List.filter]. rewrite <- Hq.
  destruct (q x); [|exact IH]. cbn [map]. rewrite IH, Hf; reflexivity.
Qed.


(** C2. For every text read from a timed-text file, [_parse_srt_file] returns
    what the specification describes: the trimmed content is split into blocks
    on the blank-line separator, exactly the blocks with at least three
    non-empty lines after trimming are kept, and each gives one segment, in the
    order of the blocks, whose index is line 1, whose time range is line 2 and
    whose text is the remaining lines joined with a single space; the other
    blocks are dropped without an error. *)
Theorem parse_srt_file_follows_spec (content : string) :
  _parse_srt_file (Some content) = parse_srt_spec content.
Proof.
  unfold _parse_srt_file, parse_srt_content, parse_srt_spec.
  rewrite fold_left_cond_snoc. rewrite app_nil_l.
  apply (map_filter_ext (fun b => has_nlnl b = false)).
  - apply split_nlnl_pieces. apply Nat.lt_succ_diag_r.
  - intros b Hb. unfold qualifies, segment_of_block.
    destruct (block_lines_eq b Hb) as [[E1 E2]|E].
    + rewrite E1, E2. split; [reflexivity|discriminate].
    + rewrite E. split; reflexivity.
Qed.

(** ** The HTML template *)

Lemma fstr_app (l1 l2 : list string) : fstr (l1 ++ l2) = fstr l1 +:+ fstr l2.
Proof.
  induction l1 as [|a l1 IH]; [reflexivity|].
  cbn [app fstr fold_right]. fold (fstr (l1 ++ l2)). fold (fstr l1).
  rewrite IH, app_assoc_s. reflexivity.
Qed.

Lemma fstr_middle (l1 : list string) (x : string) (l2 : list string) :
  fstr (l1 ++ x :: l2) = fstr l1 +:+ x +:+ fstr l2.
Proof. rewrite fstr_app. reflexivity. Qed.

Lemma fold_left_append {A} (f : A -> string) (l : list A) (acc : string) :
  fold_left (fun acc x => acc +:+ f x) l acc = acc +:+ fstr (map f l).
Proof.
  revert acc; induction l as [|x l IH]; intros acc; cbn [fold_left map].
  - symmetry. apply app_nil_r_s.
  - rewrite IH, app_assoc_s. reflexivity.
Qed.

Lemma segments_html_markup (segments : list Segment) :
  segments_html segments = fstr (map segment_markup segments).
Proof. unfold segments_html. apply (fold_left_append segment_markup). Qed.

Lemma graphs_html_acc (graph_images : list (string * option string)) (acc : string) :
  fold_left
    (fun acc item =>
       match snd item with
       | Some base64_img =>
         if truthy_str base64_img
         then acc +:+ graph_container (fst item) base64_img
         else acc
       | None => acc
       end)
    graph_images acc
  = acc +:+ fstr (map (fun e => graph_container (fst e) (snd e))
                      (encoded_images graph_images)).
Proof.
  revert acc; induction graph_images as [|[name o] l IH]; intros acc.
  - symmetry. apply app_nil_r_s.
  - cbn [fold_left]. rewrite IH. unfold encoded_images. cbn [flat_map fst snd].
    destruct o as [b|]; [|reflexivity].
    destruct (truthy_str b); [|reflexivity].
    cbn [app map fst snd]. rewrite app_assoc_s. reflexivity.
Qed.

Lemma graphs_html_markup (graph_images : list (string * option string)) :
  graphs_html graph_images
  = fstr (map (fun e => graph_container (fst e) (snd e))
              (encoded_images graph_images)).
Proof. unfold graphs_html. apply (graphs_html_acc graph_images ""). Qed.

Lemma lit_nonempty (c : ascii) (s : string) : lit (String c s) <> "".
Proof. discriminate. Qed.

Lemma append_nonempty_l (a b : string) : a <> "" -> a +:+ b <> "".
Proof. destruct a; [congruence|discriminate]. Qed.

Lemma segments_section_open_nonempty : segments_section_open <> "".
Proof. unfold segments_section_open. apply lit_nonempty. Qed.

Lemma graphs_section_open_nonempty : graphs_section_open <> "".
Proof. unfold graphs_section_open. apply lit_nonempty. Qed.

(** C5. Rendering is a function of the model and of the one clock reading of
    the template: for every model there are a prefix and a suffix, the same for
    every reading of the clock, such that the document is the prefix, then the
    formatted generation time, then the suffix.  Two renderings of one model
    therefore agree everywhere but in that timestamp, and agree entirely when
    the clock reading is the same. *)
Theorem render_fixed_but_for_timestamp
    (title transcription_text : string) (segments : list Segment)
    (metadata metrics : gmap string string)
    (graph_images : list (string * option string)) :
  exists pre post : string,
    forall now : datetime,
      _generate_html_template now title transcription_text segments
                              metadata metrics graph_images
      = pre +:+ strftime "%d/%m/%Y à %H:%M:%S" now +:+ post.
Proof.
  eexists (fstr [ html_head_open; title; html_style_and_header; title;
                  html_subtitle_open ]).
  eexists (fstr (html_metrics_open :: _)).
  intros now. unfold _generate_html_template.
  rewrite <- fstr_middle. reflexivity.
Qed.

Lemma metrics_cards_grid (metrics : gmap string string) :
  metrics_cards metrics
  = metrics_grid (six_cards metrics).
Proof.
  unfold metrics_cards, metrics_grid, metric_card, six_cards.
  cbn [map fst snd py_join fstr fold_right].
  rewrite !app_assoc_s. reflexivity.
Qed.

Lemma report_metadata_get (audio_filename : string) (now : datetime) :
  dict_get (report_metadata audio_filename now) "filename" "N/A" = audio_filename
  /\ dict_get (report_metadata audio_filename now) "model" "N/A" = "small"
  /\ dict_get (report_metadata audio_filename now) "language" "N/A" = "fr"
  /\ dict_get (report_metadata audio_filename now) "date" "N/A"
     = strftime "%d/%m/%Y %H:%M:%S" now.
Proof. repeat split; reflexivity. Qed.

Lemma generate_report_written
    (dir : TranscriptionDir) (audio_filename : string)
    (now_meta now_html : datetime) (writable : bool) (html : string) :
  written (generate_report dir audio_filename now_meta now_html writable) = Some html ->
  exists (transcription_text : string) (segments : list Segment)
         (metrics : gmap string string),
    report_metrics (_read_metrics_csv (monitoring_cpu dir))
                   (_read_metrics_csv (monitoring_memory dir))
                   (_read_metrics_csv (monitoring_power dir)) = Ok metrics
    /\ html = _generate_html_template now_html
                (fstr [ "Rapport de Transcription - "; audio_filename ])
                transcription_text segments
                (report_metadata audio_filename now_meta) metrics (load_graphs dir).
Proof.
  unfold generate_report, report_html.
  destruct (txt_files dir) as [|[content|] rest]; [discriminate| |discriminate].
  cbn [mbind result_bind mret result_ret].
  destruct (report_metrics _ _ _) as [metrics|e]; [|discriminate].
  destruct writable; [|discriminate].
  cbn [written success]. intros [= <-].
  eexists content, _, metrics. split; reflexivity.
Qed.

Lemma dict_get_absent {V} (d : gmap string V) (key : string) (dflt : V) :
  dict_get (delete key d) key dflt = dflt.
Proof. unfold dict_get. rewrite lookup_delete_eq. reflexivity. Qed.

(** C7. For every input model the document holds, at one fixed place, the
    metrics grid made of exactly six cards in the order audio duration,
    processing time, throughput, CPU average, memory average, total energy;
    what stands before and after the grid does not depend on the metrics.  The
    value of a card whose key is not in the metrics is the marker ['N/A'],
    which is not blank. *)
Theorem metrics_grid_six_cards
    (now : datetime) (title transcription_text : string)
    (segments : list Segment) (metadata : gmap string string)
    (graph_images : list (string * option string)) :
  exists pre post : string,
    forall metrics : gmap string string,
      _generate_html_template now title transcription_text segments
                              metadata metrics graph_images
      = pre
        +:+ metrics_grid
              [ ("Durée Audio", dict_get metrics "audio_duration" "N/A");
                ("Temps de Traitement", dict_get metrics "processing_time" "N/A");
                ("Throughput", dict_get metrics "throughput" "N/A");
                ("CPU Moyen", dict_get metrics "cpu_avg" "N/A");
                ("RAM Moyenne", dict_get metrics "memory_avg" "N/A");
                ("Énergie Totale", dict_get metrics "energy_total" "N/A") ]
        +:+ post
      /\ (forall key : string, dict_get (delete key metrics) key "N/A" = "N/A")
      /\ "N/A" <> "".
Proof.
  eexists (fstr [ html_head_open; title; html_style_and_header; title;
                  html_subtitle_open; strftime "%d/%m/%Y à %H:%M:%S" now;
                  html_metrics_open ]).
  eexists (fstr (html_metadata_open :: _)).
  intros metrics. split; [|split].
  - unfold _generate_html_template.
    rewrite metrics_cards_grid. unfold six_cards.
    rewrite <- fstr_middle. reflexivity.
  - intros key. apply dict_get_absent.
  - discriminate.
Qed.

(** C6, amended. The segments section is in the document if and only if
    there is at least one segment, and then holds the markup of every segment
    in order.  The graphs section is in the document if and only if the image
    dictionary has at least one entry, whether or not that entry carries an
    encoding; inside it only the entries that carry an encoding give an image
    container, the others are skipped one by one.  What stands around the two
    slots depends on neither the segments nor the images. *)
Theorem sections_follow_their_inputs
    (now : datetime) (title transcription_text : string)
    (metadata metrics : gmap string string) :
  exists pre mid post : string,
    forall (segments : list Segment)
           (graph_images : list (string * option string)),
      _generate_html_template now title transcription_text segments
                              metadata metrics graph_images
      = pre +:+ segments_section segments
            +:+ mid +:+ graphs_section graph_images +:+ post
      /\ (segments_section segments = "" <-> segments = [])
      /\ (segments <> [] ->
          segments_section segments
          = fstr [ segments_section_open;
                   fstr (map segment_markup segments);
                   segments_section_close ])
      /\ (graphs_section graph_images = "" <-> graph_images = [])
      /\ (graph_images <> [] ->
          graphs_section graph_images
          = fstr [ graphs_section_open;
                   fstr (map (fun e => graph_container (fst e) (snd e))
                             (encoded_images graph_images));
                   graphs_section_close ]).
Proof.
  eexists (fstr [ html_head_open; title; html_style_and_header; title;
                  html_subtitle_open; strftime "%d/%m/%Y à %H:%M:%S" now;
                  html_metrics_open; metrics_cards metrics; html_metadata_open;
                  dict_get metadata "filename" "N/A"; html_metadata_model;
                  dict_get metadata "model" "N/A"; html_metadata_language;
                  dict_get metadata "language" "N/A"; html_metadata_date;
                  dict_get metadata "date" "N/A"; html_transcription_open;
                  transcription_text; html_transcription_close ]).
  exists html_graphs_comment, (fstr [ html_script_tail ]).
  intros segments graph_images. repeat split.
  - unfold _generate_html_template.
    rewrite <- (fstr_middle [ html_graphs_comment ] _ [ html_script_tail ]).
    rewrite <- fstr_middle. reflexivity.
  - destruct segments as [|seg segments]; [reflexivity|].
    unfold segments_section. cbn [truthy_list fstr fold_right].
    intros H. apply append_nonempty_l in H; [contradiction|].
    apply segments_section_open_nonempty.
  - intros ->. reflexivity.
  - intros H. destruct segments as [|seg segments]; [contradiction|].
    unfold segments_section. cbn [truthy_list].
    rewrite segments_html_markup. reflexivity.
  - destruct graph_images as [|item graph_images]; [reflexivity|].
    unfold graphs_section. cbn [truthy_list fstr fold_right].
    intros H. apply append_nonempty_l in H; [contradiction|].
    apply graphs_section_open_nonempty.
  - intros ->. reflexivity.
  - intros H. destruct graph_images as [|item graph_images]; [contradiction|].
    unfold graphs_section. cbn [truthy_list].
    rewrite graphs_html_markup. reflexivity.
Qed.

(** One segment, and an image dictionary whose only entry has no encoding. *)
Lemma sections_follow_their_inputs_witness :
  [ {| index := "1"; timestamps := "00:00 --> 00:02"; text := "Bonjour" |} ] <> []
  /\ segments_section
       [ {| index := "1"; timestamps := "00:00 --> 00:02"; text := "Bonjour" |} ]
     = fstr [ segments_section_open;
              segment_markup
                {| index := "1"; timestamps := "00:00 --> 00:02"; text := "Bonjour" |};
              segments_section_close ]
  /\ [ ("cpu_usage.png", @None string) ] <> []
  /\ graphs_section [ ("cpu_usage.png", None) ]
     = fstr [ graphs_section_open; ""; graphs_section_close ].
Proof.
  destruct (sections_follow_their_inputs noon "Rapport" "Bonjour" ∅ ∅)
    as (pre & mid & post & H).
  destruct (H [ {| index := "1"; timestamps := "00:00 --> 00:02"; text := "Bonjour" |} ]
              [ ("cpu_usage.png", None) ])
    as (_ & _ & Hs & _ & Hg).
  assert (Hne1 : [ {| index := "1"; timestamps := "00:00 --> 00:02";
                      text := "Bonjour" |} ] <> []) by discriminate.
  assert (Hne2 : [ ("cpu_usage.png", @None string) ] <> []) by discriminate.
  split; [exact Hne1|]. split; [|split; [exact Hne2|exact (Hg Hne2)]].
  rewrite (Hs Hne1). cbn [map fstr fold_right].
  rewrite app_nil_r_s. reflexivity.
Defined.

(** C6, the claim as written fails: in a directory where the CPU chart exists
    and cannot be read, every candidate image has failed to encode (the image
    dictionary holds one entry, with no encoding), and the document written
    still has the graphs section, with no image in it. *)
Lemma graphs_section_shown_without_image :
  load_graphs dir_broken_chart = [ ("cpu_usage.png", None) ]
  /\ encoded_images (load_graphs dir_broken_chart) = []
  /\ returned (generate_report dir_broken_chart "test_audio" noon later true) = true
  /\ contains (lit "<div class=`collapsible-content` id=`graphs`>")
              (report_of dir_broken_chart "test_audio") = true
  /\ contains (lit "<img src=") (report_of dir_broken_chart "test_audio") = false.
Proof. repeat split; vm_compute; reflexivity. Qed.

(** C9. Whenever a report is written, its metadata grid shows the audio name
    that was asked for, the model ['small'], the language ['fr'] and, as the
    date, the clock reading taken while the report is built: none of the three
    comes from a file of the directory. *)
Theorem report_metadata_is_constant
    (dir : TranscriptionDir) (audio_filename : string)
    (now_meta now_html : datetime) (writable : bool) (html : string)
    (Hwritten : written (generate_report dir audio_filename
                                         now_meta now_html writable) = Some html) :
  exists pre post : string,
    html = pre
           +:+ fstr [ html_metadata_open; audio_filename;
                      html_metadata_model; "small";
                      html_metadata_language; "fr";
                      html_metadata_date; strftime "%d/%m/%Y %H:%M:%S" now_meta ]
           +:+ post.
Proof.
  apply generate_report_written in Hwritten
    as (transcription_text & segments & metrics & _ & ->).
  unfold _generate_html_template.
  destruct (report_metadata_get audio_filename now_meta) as (-> & -> & -> & ->).
  eexists (fstr [ html_head_open; _; html_style_and_header; _;
                  html_subtitle_open; _; html_metrics_open; _ ]).
  eexists (fstr (html_transcription_open :: _)).
  rewrite <- app_assoc_s, <- !fstr_app. reflexivity.
Qed.

(** The report of a directory that holds a transcript and nothing else. *)
Lemma report_metadata_is_constant_witness :
  written (generate_report bare_dir "test_audio" noon later true)
  = Some (report_of bare_dir "test_audio")
  /\ exists pre post : string,
      report_of bare_dir "test_audio"
      = pre
        +:+ fstr [ html_metadata_open; "test_audio";
                   html_metadata_model; "small";
                   html_metadata_language; "fr";
                   html_metadata_date; "07/03/2025 12:00:05" ]
        +:+ post.
Proof.
  assert (H : written (generate_report bare_dir "test_audio" noon later true)
              = Some (report_of bare_dir "test_audio"))
    by (vm_compute; reflexivity).
  split; [exact H|].
  exact (report_metadata_is_constant bare_dir "test_audio" noon later true _ H).
Defined.
(** ** The metrics snapshot *)

Lemma percent_not_marker (mean : pyfloat) : percent mean <> "N/A".
Proof.
  unfold percent. cbn [fstr fold_right].
  destruct (format_f 1 mean) as [|a [|b [|c x]]];
    cbn [String.append]; try discriminate.
  destruct x; discriminate.
Qed.

Lemma kwh_not_marker (x : pyfloat) : kwh x <> "N/A".
Proof.
  unfold kwh. cbn [fstr fold_right].
  destruct (format_f 3 x) as [|a [|b [|c y]]];
    cbn [String.append]; try discriminate.
  destruct y; discriminate.
Qed.

Lemma getitem_has_column (df : DataFrame) (col : string) (series : Series) :
  df_getitem df col = Ok series -> has_column df col = true.
Proof.
  unfold has_column, df_getitem.
  destruct (index_of col (columns df)); [reflexivity|discriminate].
Qed.

Lemma getitem_length (df : DataFrame) (col : string) (series : Series) :
  df_getitem df col = Ok series -> length (values series) = df_len df.
Proof.
  unfold df_getitem, df_len. destruct (index_of col (columns df)); [|discriminate].
  intros [= <-]. apply length_map.
Qed.

Lemma report_metrics_fields (cpu memory power : option DataFrame) :
  report_metrics cpu memory power
  = (cpu_avg ← avg_field cpu "CPU_Usage_Percent";
     memory_avg ← avg_field memory "Memory_Usage_Percent";
     energy_total ← energy_field power;
     mret (snapshot cpu_avg memory_avg energy_total)).
Proof. reflexivity. Qed.

Lemma avg_field_value (df : option DataFrame) (col value : string) :
  avg_field df col = Ok value <-> avg_value df col value.
Proof.
  unfold avg_field, avg_value. destruct df as [df|].
  - destruct (df_getitem df col) as [series|e]; cbn [mbind result_bind].
    + destruct (series_mean series) as [mean|e] eqn:Em;
        cbn [mbind result_bind mret result_ret].
      * split.
        -- intros [= <-]. exists series, mean. repeat split. exact Em.
        -- intros (s & m & [= <-] & Em' & ->). rewrite Em in Em'.
           injection Em' as <-. reflexivity.
      * split; [discriminate|].
        intros (s & m & [= <-] & Em' & _). rewrite Em in Em'. discriminate.
    + split; [discriminate|]. intros (s & m & E & _). discriminate.
  - cbn [mret result_ret]. split; [intros [= <-]; reflexivity|intros ->; reflexivity].
Qed.

Lemma energy_field_value (df : option DataFrame) (value : string) :
  energy_field df = Ok value <-> energy_value df value.
Proof.
  unfold energy_field, energy_value. destruct df as [df|].
  - destruct (0 <? df_len df).
    + destruct (df_getitem df "Energy_kWh") as [series|e]; cbn [mbind result_bind].
      * unfold iloc_last.
        destruct (last (values series)) as [[x|t]|] eqn:El;
          cbn [mbind result_bind format_cell mret result_ret].
        -- split.
           ++ intros [= <-]. exists series, x. repeat split. exact El.
           ++ intros (s & y & [= <-] & El' & ->). rewrite El in El'.
              injection El' as <-. reflexivity.
        -- split; [discriminate|].
           intros (s & y & [= <-] & El' & _). rewrite El in El'. discriminate.
        -- split; [discriminate|].
           intros (s & y & [= <-] & El' & _). rewrite El in El'. discriminate.
      * split; [discriminate|]. intros (s & y & E & _). discriminate.
    + cbn [mret result_ret].
      split; [intros [= <-]; reflexivity|intros ->; reflexivity].
  - cbn [mret result_ret]. split; [intros [= <-]; reflexivity|intros ->; reflexivity].
Qed.

Lemma report_metrics_built (cpu memory power : option DataFrame)
    (metrics : gmap string string) :
  report_metrics cpu memory power = Ok metrics ->
  exists cpu_avg memory_avg energy_total : string,
    metrics = snapshot cpu_avg memory_avg energy_total
    /\ avg_value cpu "CPU_Usage_Percent" cpu_avg
    /\ avg_value memory "Memory_Usage_Percent" memory_avg
    /\ energy_value power energy_total.
Proof.
  rewrite report_metrics_fields. intros H.
  destruct (avg_field cpu _) as [c|] eqn:Ec; [|discriminate H].
  destruct (avg_field memory _) as [me|] eqn:Em; [|discriminate H].
  destruct (energy_field power) as [e|] eqn:Ee; [|discriminate H].
  injection H as <-. exists c, me, e.
  apply avg_field_value in Ec, Em. apply energy_field_value in Ee. auto.
Qed.

Lemma snapshot_lookup (cpu_avg memory_avg energy_total : string) :
  snapshot cpu_avg memory_avg energy_total !! "cpu_avg" = Some cpu_avg
  /\ snapshot cpu_avg memory_avg energy_total !! "memory_avg" = Some memory_avg
  /\ snapshot cpu_avg memory_avg energy_total !! "energy_total" = Some energy_total
  /\ Forall (fun key => is_Some (snapshot cpu_avg memory_avg energy_total !! key))
            snapshot_keys.
Proof.
  repeat split; try reflexivity.
  unfold snapshot_keys. repeat constructor; eexists; reflexivity.
Qed.

Lemma avg_value_column (f : file DataFrame) (col value : string) :
  avg_value (_read_metrics_csv f) col value -> lacks_column f col = false.
Proof.
  destruct f as [| |df];
    cbn [avg_value lacks_column _read_metrics_csv read_csv]; [reflexivity..|].
  intros (series & mean & E & _). apply getitem_has_column in E. rewrite E.
  reflexivity.
Qed.

Lemma energy_value_column (f : file DataFrame) (value : string) :
  energy_value (_read_metrics_csv f) value ->
  has_rows f && lacks_column f "Energy_kWh" = false.
Proof.
  destruct f as [| |df];
    cbn [energy_value has_rows lacks_column _read_metrics_csv read_csv];
    [reflexivity..|].
  destruct (0 <? df_len df); [|reflexivity].
  intros (series & x & E & _). apply getitem_has_column in E. rewrite E. reflexivity.
Qed.

Lemma built_no_column_missing (cpu memory power : file DataFrame)
    (metrics : gmap string string) :
  report_metrics (_read_metrics_csv cpu) (_read_metrics_csv memory)
                 (_read_metrics_csv power) = Ok metrics ->
  column_missing cpu memory power = false.
Proof.
  intros H. apply report_metrics_built in H as (c & me & e & _ & Hc & Hm & He).
  unfold column_missing.
  rewrite (avg_value_column _ _ _ Hc), (avg_value_column _ _ _ Hm),
    (energy_value_column _ _ He).
  reflexivity.
Qed.

Lemma average_computable_field (f : file DataFrame) (col : string) :
  average_computable f col = true
  <-> exists value, avg_field (_read_metrics_csv f) col = Ok value.
Proof.
  destruct f as [| |df];
    cbn [average_computable avg_field _read_metrics_csv read_csv];
    [split; [eexists; reflexivity|reflexivity]..|].
  destruct (df_getitem df col) as [series|e]; cbn [mbind result_bind].
  - destruct (series_mean series) as [mean|e]; cbn [mbind result_bind].
    + split; [eexists; reflexivity|reflexivity].
    + split; [discriminate|intros [v H]; discriminate].
  - split; [discriminate|intros [v H]; discriminate].
Qed.

Lemma energy_computable_field (f : file DataFrame) :
  energy_computable f = true
  <-> exists value, energy_field (_read_metrics_csv f) = Ok value.
Proof.
  destruct f as [| |df];
    cbn [energy_computable energy_field _read_metrics_csv read_csv];
    [split; [eexists; reflexivity|reflexivity]..|].
  destruct (0 <? df_len df); [|split; [eexists; reflexivity|reflexivity]].
  destruct (df_getitem df "Energy_kWh") as [series|e]; cbn [mbind result_bind].
  - unfold iloc_last.
    destruct (last (values series)) as [[x|s]|]; cbn [mbind result_bind format_cell].
    + split; [eexists; reflexivity|reflexivity].
    + split; [discriminate|intros [v H]; discriminate].
    + split; [discriminate|intros [v H]; discriminate].
  - split; [discriminate|intros [v H]; discriminate].
Qed.

Lemma report_metrics_succeeds (cpu memory power : file DataFrame) :
  (exists metrics,
      report_metrics (_read_metrics_csv cpu) (_read_metrics_csv memory)
                     (_read_metrics_csv power) = Ok metrics)
  <-> average_computable cpu "CPU_Usage_Percent"
      && average_computable memory "Memory_Usage_Percent"
      && energy_computable power = true.
Proof.
  rewrite report_metrics_fields, !andb_true_iff, !average_computable_field,
    energy_computable_field.
  split.
  - intros [metrics H].
    destruct (avg_field (_read_metrics_csv cpu) _) as [c|]; [|discriminate H].
    destruct (avg_field (_read_metrics_csv memory) _) as [me|]; [|discriminate H].
    destruct (energy_field (_read_metrics_csv power)) as [e|]; [|discriminate H].
    repeat split; eexists; reflexivity.
  - intros [[[c ->] [me ->]] [e ->]]. eexists. reflexivity.
Qed.

Lemma unavailable_avg (f : file DataFrame) (col value : string) :
  unavailable f = true -> avg_value (_read_metrics_csv f) col value -> value = "N/A".
Proof. destruct f; [auto..|discriminate]. Qed.

Lemma no_rows_energy (f : file DataFrame) (value : string) :
  unavailable f = true \/ has_rows f = false ->
  energy_value (_read_metrics_csv f) value -> value = "N/A".
Proof.
  destruct f as [| |df];
    cbn [energy_value unavailable has_rows _read_metrics_csv read_csv]; [auto..|].
  intros [H|H]; [discriminate|]. rewrite H. auto.
Qed.

(** C1, amended. A resource log that is missing or cannot be read never
    aborts the aggregation: the metrics are built exactly when the metric of
    every parsed log can be computed (the log has its column, pandas answers
    the mean, the last energy reading is a number), a missing or unreadable
    log always counting as computable; and when they are built, every one of
    the six fields is there and the field of each missing or unreadable log is
    the marker ['N/A'].  A log that was parsed and lacks its expected column
    (for the power log: when it has rows) makes the whole report fail instead:
    [generate_report] returns [False] and writes nothing. *)
Theorem missing_log_degrades_missing_column_aborts
    (dir : TranscriptionDir) (audio_filename : string)
    (now_meta now_html : datetime) (writable : bool) :
  let cpu := monitoring_cpu dir in
  let memory := monitoring_memory dir in
  let power := monitoring_power dir in
  let built :=
    report_metrics (_read_metrics_csv cpu) (_read_metrics_csv memory)
                   (_read_metrics_csv power) in
  (column_missing cpu memory power = true ->
   (exists e, built = Raise e)
   /\ generate_report dir audio_filename now_meta now_html writable = failure)
  /\ ((exists metrics, built = Ok metrics)
      <-> average_computable cpu "CPU_Usage_Percent"
          && average_computable memory "Memory_Usage_Percent"
          && energy_computable power = true)
  /\ (unavailable cpu = true -> average_computable cpu "CPU_Usage_Percent" = true)
  /\ (unavailable memory = true ->
      average_computable memory "Memory_Usage_Percent" = true)
  /\ (unavailable power = true -> energy_computable power = true)
  /\ (forall metrics : gmap string string,
        built = Ok metrics ->
        Forall (fun key => is_Some (metrics !! key)) snapshot_keys
        /\ (unavailable cpu = true -> metrics !! "cpu_avg" = Some "N/A")
        /\ (unavailable memory = true -> metrics !! "memory_avg" = Some "N/A")
        /\ (unavailable power = true -> metrics !! "energy_total" = Some "N/A")).
Proof.
  cbv zeta. split; [|split; [apply report_metrics_succeeds|]].
  - intros H.
    assert (Hraise : exists e,
               report_metrics (_read_metrics_csv (monitoring_cpu dir))
                              (_read_metrics_csv (monitoring_memory dir))
                              (_read_metrics_csv (monitoring_power dir)) = Raise e).
    { destruct (report_metrics _ _ _) as [metrics|e] eqn:E; [|eauto].
      apply built_no_column_missing in E. congruence. }
    split; [exact Hraise|]. destruct Hraise as [e E].
    unfold generate_report, report_html.
    destruct (txt_files dir) as [|[content|] rest]; [reflexivity| |reflexivity].
    cbn [mbind result_bind mret result_ret]. rewrite E. reflexivity.
  - split; [destruct (monitoring_cpu dir); [reflexivity..|discriminate]|].
    split; [destruct (monitoring_memory dir); [reflexivity..|discriminate]|].
    split; [destruct (monitoring_power dir); [reflexivity..|discriminate]|].
    intros metrics E.
    apply report_metrics_built in E as (c & me & e & -> & Hc & Hm & He).
    destruct (snapshot_lookup c me e) as (Lc & Lm & Le & Hall).
    split; [exact Hall|]. rewrite Lc, Lm, Le.
    repeat split; intros Hu; f_equal.
    + exact (unavailable_avg _ _ _ Hu Hc).
    + exact (unavailable_avg _ _ _ Hu Hm).
    + exact (no_rows_energy _ _ (or_introl Hu) He).
Qed.

(** An unreadable memory log between two good logs. *)
Lemma missing_log_degrades_witness :
  unavailable (monitoring_memory dir_two_logs) = true
  /\ exists metrics : gmap string string,
      report_metrics (_read_metrics_csv (monitoring_cpu dir_two_logs))
                     (_read_metrics_csv (monitoring_memory dir_two_logs))
                     (_read_metrics_csv (monitoring_power dir_two_logs)) = Ok metrics
      /\ metrics !! "memory_avg" = Some "N/A"
      /\ Forall (fun key => is_Some (metrics !! key)) snapshot_keys.
Proof.
  split; [reflexivity|].
  destruct (missing_log_degrades_missing_column_aborts
              dir_two_logs "test_audio" noon later true) as (_ & Hiff & _ & _ & _ & H).
  destruct (proj2 Hiff eq_refl) as [metrics E].
  destruct (H metrics E) as (Hall & _ & Hm & _).
  exists metrics. split; [exact E|]. split; [exact (Hm eq_refl)|exact Hall].
Defined.

(** C1, the claim as written fails: beside a good CPU log, a memory log that
    exists, has rows and lacks [Memory_Usage_Percent] does not give ['N/A'] in
    its field: the column lookup raises, no metrics dictionary is built, and
    the report fails without writing a file. *)
Lemma missing_column_aborts_report :
  monitoring_memory dir_memory_renamed = Content memory_log_renamed
  /\ df_empty memory_log_renamed = false
  /\ has_column memory_log_renamed "Memory_Usage_Percent" = false
  /\ report_metrics (_read_metrics_csv (monitoring_cpu dir_memory_renamed))
                    (_read_metrics_csv (monitoring_memory dir_memory_renamed))
                    (_read_metrics_csv (monitoring_power dir_memory_renamed))
     = Raise (KeyError "Memory_Usage_Percent")
  /\ generate_report dir_memory_renamed "test_audio" noon later true = failure.
Proof. repeat split; vm_compute; reflexivity. Qed.

Lemma rows_avg (f : file DataFrame) (col value : string) :
  has_rows f = true -> avg_value (_read_metrics_csv f) col value ->
  exists df series mean,
    f = Content df /\ df_getitem df col = Ok series
    /\ series_mean series = Ok mean /\ value = percent mean.
Proof.
  destruct f as [| |df]; cbn [has_rows avg_value _read_metrics_csv read_csv];
    [discriminate..|].
  intros _ (series & mean & E & Em & ->).
  exists df, series, mean. repeat split; assumption.
Qed.

Lemma rows_energy (f : file DataFrame) (value : string) :
  has_rows f = true -> energy_value (_read_metrics_csv f) value ->
  exists df series x,
    f = Content df /\ df_getitem df "Energy_kWh" = Ok series
    /\ last (values series) = Some (Num x) /\ value = kwh x.
Proof.
  destruct f as [| |df]; cbn [has_rows energy_value _read_metrics_csv read_csv];
    [discriminate..|].
  intros ->. intros (series & x & E & El & ->).
  exists df, series, x. repeat split; assumption.
Qed.

(** C4, amended. Whenever the metrics of a report are built, no parsed log
    lacks its required column (a log that does makes the report fail, and no
    snapshot exists at all), and none of the six fields is omitted.  The CPU
    and memory fields are the marker ['N/A'] when their log is missing or
    unreadable, and are the mean that pandas answers for the required column,
    written as a percentage with one decimal, never the marker, when the log
    has at least one row.  The energy field is the marker when its log is
    missing, unreadable or without rows, and is otherwise the last reading of
    the required column, a number, written in kWh with three decimals, never
    the marker. *)
Theorem snapshot_fields_when_built
    (cpu memory power : file DataFrame) (metrics : gmap string string)
    (Hbuilt : report_metrics (_read_metrics_csv cpu) (_read_metrics_csv memory)
                             (_read_metrics_csv power) = Ok metrics) :
  column_missing cpu memory power = false
  /\ Forall (fun key => is_Some (metrics !! key)) snapshot_keys
  /\ (unavailable cpu = true -> metrics !! "cpu_avg" = Some "N/A")
  /\ (has_rows cpu = true ->
      exists df series mean,
        cpu = Content df /\ df_getitem df "CPU_Usage_Percent" = Ok series
        /\ series_mean series = Ok mean
        /\ metrics !! "cpu_avg" = Some (percent mean)
        /\ percent mean <> "N/A")
  /\ (unavailable memory = true -> metrics !! "memory_avg" = Some "N/A")
  /\ (has_rows memory = true ->
      exists df series mean,
        memory = Content df /\ df_getitem df "Memory_Usage_Percent" = Ok series
        /\ series_mean series = Ok mean
        /\ metrics !! "memory_avg" = Some (percent mean)
        /\ percent mean <> "N/A")
  /\ (unavailable power = true \/ has_rows power = false ->
      metrics !! "energy_total" = Some "N/A")
  /\ (has_rows power = true ->
      exists df series x,
        power = Content df /\ df_getitem df "Energy_kWh" = Ok series
        /\ last (values series) = Some (Num x)
        /\ metrics !! "energy_total" = Some (kwh x)
        /\ kwh x <> "N/A").
Proof.
  split; [exact (built_no_column_missing _ _ _ _ Hbuilt)|].
  apply report_metrics_built in Hbuilt as (c & me & e & -> & Hc & Hm & He).
  destruct (snapshot_lookup c me e) as (Lc & Lm & Le & Hall).
  split; [exact Hall|]. rewrite Lc, Lm, Le.
  split; [intros H; f_equal; exact (unavailable_avg _ _ _ H Hc)|].
  split.
  { intros H. destruct (rows_avg _ _ _ H Hc) as (df & series & mean & -> & E & Em & ->).
    exists df, series, mean. repeat split; auto using percent_not_marker. }
  split; [intros H; f_equal; exact (unavailable_avg _ _ _ H Hm)|].
  split.
  { intros H. destruct (rows_avg _ _ _ H Hm) as (df & series & mean & -> & E & Em & ->).
    exists df, series, mean. repeat split; auto using percent_not_marker. }
  split; [intros H; f_equal; exact (no_rows_energy _ _ H He)|].
  intros H. destruct (rows_energy _ _ H He) as (df & series & x & -> & E & El & ->).
  exists df, series, x. repeat split; auto using kwh_not_marker.
Qed.

(** The snapshot of a CPU log, an unreadable memory log and a power log. *)
Lemma snapshot_fields_when_built_witness :
  report_metrics (_read_metrics_csv (Content cpu_log))
                 (_read_metrics_csv Unreadable)
                 (_read_metrics_csv (Content power_log))
  = Ok (snapshot "20.0%" "N/A" "0.025 kWh")
  /\ snapshot "20.0%" "N/A" "0.025 kWh" !! "memory_avg" = Some "N/A"
  /\ Forall (fun key => is_Some (snapshot "20.0%" "N/A" "0.025 kWh" !! key))
            snapshot_keys.
Proof.
  assert (H : report_metrics (_read_metrics_csv (Content cpu_log))
                             (_read_metrics_csv Unreadable)
                             (_read_metrics_csv (Content power_log))
              = Ok (snapshot "20.0%" "N/A" "0.025 kWh"))
    by (vm_compute; reflexivity).
  split; [exact H|].
  destruct (snapshot_fields_when_built _ _ _ _ H)
    as (_ & Hall & _ & _ & Hm & _).
  split; [exact (Hm eq_refl)|exact Hall].
Defined.

(** C4, the claim as written fails: with a CPU log that exists, has rows and
    lacks [CPU_Usage_Percent], the CPU field is not the marker ['N/A']: the
    lookup raises, the metrics structure is never built, and no report is
    written, so the field is omitted with all the others. *)
Lemma lacking_column_leaves_no_snapshot :
  exists_ (monitoring_cpu dir_cpu_renamed) = true
  /\ has_rows (monitoring_cpu dir_cpu_renamed) = true
  /\ lacks_column (monitoring_cpu dir_cpu_renamed) "CPU_Usage_Percent" = true
  /\ report_metrics (_read_metrics_csv (monitoring_cpu dir_cpu_renamed))
                    (_read_metrics_csv (monitoring_memory dir_cpu_renamed))
                    (_read_metrics_csv (monitoring_power dir_cpu_renamed))
     = Raise (KeyError "CPU_Usage_Percent")
  /\ written (generate_report dir_cpu_renamed "test_audio" noon later true) = None.
Proof. repeat split; vm_compute; reflexivity. Qed.
(** ** Charts *)

Lemma empty_series_read (f : file DataFrame) :
  empty_series f = true ->
  (exists e, read_csv f = Raise e)
  \/ (exists df, read_csv f = Ok df /\ df_empty df = true).
Proof.
  destruct f as [| |df]; cbn [empty_series read_csv]; [left; eauto..|].
  intros H. right. exists df. split; [reflexivity|].
  unfold df_empty. rewrite H. apply orb_true_r.
Qed.

(** C8. For the CPU chart and for the memory chart alike, when the series of
    the resource log is empty (the file cannot be read, or it holds no data
    row) the call returns [False] and no image file is produced; no exception
    leaves the call, whatever the state of the output path. *)
Theorem empty_series_no_chart (log : file DataFrame) (savable : bool)
    (Hempty : empty_series log = true) :
  plot_cpu_usage log savable = failure
  /\ plot_memory_usage log savable = failure.
Proof.
  unfold plot_cpu_usage, plot_cpu_body, plot_memory_usage, plot_memory_body.
  destruct (empty_series_read log Hempty) as [[e ->]|(df & -> & E)].
  - split; reflexivity.
  - cbn [mbind result_bind]. rewrite E. split; reflexivity.
Qed.

(** A log with its header and no data row. *)
Lemma empty_series_no_chart_witness :
  empty_series (Content header_only) = true
  /\ plot_cpu_usage (Content header_only) true = failure
  /\ plot_memory_usage (Content header_only) true = failure.
Proof.
  split; [reflexivity|].
  exact (empty_series_no_chart (Content header_only) true eq_refl).
Defined.

(** ** The session summary *)



(** *** The writes and the file *)




(** *** The steps that format a value *)

Lemma formattable_float (v : pyval) :
  formattable v = true -> exists x, py_float v = Ok x.
Proof.
  destruct v as [z|x|b| |s]; cbn [formattable py_float]; try discriminate; eauto.
  unfold in_float_range. destruct (float_of_Z z); try discriminate; eauto.
Qed.












(** *** The objectives *)










(** *** Missing keys *)











(** ** The model at work *)

(** Two cues and a block that is too short, with blank lines to spare. *)
Example parse_two_cues :
  parse_srt_content
    (fstr [ NL; "1"; NL; "00:00:00,000 --> 00:00:02,000"; NL; "Bonjour"; NL;
            "le monde"; NLNL; NL; "2"; NL; "sans texte"; NLNL;
            "3"; NL; "00:00:02,000 --> 00:00:04,000"; NL; "Au revoir  "; NL ])
  = [ {| index := "1"; timestamps := "00:00:00,000 --> 00:00:02,000";
         text := "Bonjour le monde" |};
      {| index := "3"; timestamps := "00:00:02,000 --> 00:00:04,000";
         text := "Au revoir" |} ].
Proof. vm_compute. reflexivity. Qed.

Example parse_unreadable_file : _parse_srt_file None = [].
Proof. reflexivity. Qed.

(** The float formats round the exact value of the double: 0.125 is a tie and
    goes to the even digit, 2.675 lies below the tie, and 0.9755 times 100 is
    the double just below 97.55. *)
Example format_examples :
  format_f 3 (dbl 12346 10000) = "1.235"
  /\ format_f 2 (dbl 125 1000) = "0.12"
  /\ format_f 2 (dbl 2675 1000) = "2.67"
  /\ format_f 1 (fmul (dbl 9755 10000) (float_of_Z 100)) = "97.5"
  /\ format_f 2 (float_of_Z 0) = "0.00"
  /\ format_f 1 NaN = "nan"
  /\ py_format_f 2 (PInt (10 ^ 400)) = Raise OverflowError
  /\ py_format_f 2 (PBool true) = Ok "1.00"
  /\ py_ge (PFloat (dbl 99 100)) (PFloat (dbl 99 100)) = Ok true
  /\ py_ge (PFloat (dbl 98999 100000)) (PFloat (dbl 99 100)) = Ok false
  /\ py_ge PNone (PInt 5) = Raise TypeError.
Proof. repeat split; vm_compute; reflexivity. Qed.

Example image_examples :
  _image_to_base64 "charts/cpu_usage.png" (Content "Man")
  = Some "data:image/png;base64,TWFu"
  /\ _image_to_base64 "charts/photo.JPG" (Content "Ma")
     = Some "data:image/jpeg;base64,TWE="
  /\ _image_to_base64 "charts/cpu_usage.png" Unreadable = None.
Proof. repeat split; vm_compute; reflexivity. Qed.

Example clock_examples :
  strftime "%d/%m/%Y %H:%M:%S" noon = "07/03/2025 12:00:05"
  /\ strftime "%d/%m/%Y à %H:%M:%S" later = "07/03/2025 à 12:00:06".
Proof. split; vm_compute; reflexivity. Qed.

(** A transcript alone: the six metrics are ['N/A'] and the document has
    neither a segments nor a graphs section. *)
Example bare_report :
  returned (generate_report bare_dir "test_audio" noon later true) = true
  /\ contains "Bonjour le monde" (report_of bare_dir "test_audio") = true
  /\ report_metrics None None None = Ok (snapshot "N/A" "N/A" "N/A")
  /\ contains (lit "id=`segments`") (report_of bare_dir "test_audio") = false
  /\ contains (lit "id=`graphs`") (report_of bare_dir "test_audio") = false.
Proof. repeat split; vm_compute; reflexivity. Qed.

(** A CPU log with the values 10, 20 and 30 shows as ["20.0%"], in the report
    and on the chart. *)
Example cpu_log_report :
  contains (lit "<div class=`metric-value`>20.0%</div>")
           (report_of dir_two_logs "test_audio") = true
  /\ option_map panel_hlines (written (plot_cpu_usage (Content cpu_log) true))
     = Some [ (Num (float_of_Z 20), "Moyenne: 20.0%") ].
Proof. split; vm_compute; reflexivity. Qed.

(** The mean of 68.8 and 79.9 is written from the double that pandas
    answers, which rounds down. *)
Example memory_log_report :
  report_metrics None (_read_metrics_csv (Content memory_log)) None
  = Ok (snapshot "N/A" "74.3%" "N/A")
  /\ option_map (fun panels => panel_hlines (fst panels))
                (written (plot_memory_usage (Content memory_log) true))
     = Some [ (Num (fdiv (SFadd prec emax (dbl 688 10) (dbl 799 10))
                         (float_of_Z 2)), "Moyenne: 74.3%");
              (Num (float_of_Z 90), "Seuil alerte: 90%") ].
Proof. split; vm_compute; reflexivity. Qed.

(** A CPU log with its header and no data row is read, and its mean is not a
    number. *)
Example header_only_log :
  report_metrics (_read_metrics_csv (Content header_only)) None None
  = Ok (snapshot "nan%" "N/A" "N/A").
Proof. vm_compute. reflexivity. Qed.

(** A log whose column holds a text has no mean: the metrics are not built,
    and no chart is drawn.  A text as the last energy reading has no float
    format. *)
Example text_cells :
  report_metrics (_read_metrics_csv (Content cpu_log_text)) None None
  = Raise TypeError
  /\ plot_cpu_usage (Content cpu_log_text) true = failure
  /\ report_metrics None None (_read_metrics_csv (Content power_log_text))
     = Raise ValueError.
Proof. repeat split; vm_compute; reflexivity. Qed.

(** A summary with a throughput of 4.9 and half of the files failed. *)
Example half_failed_summary :
  option_map (fun report => (contains "Throughput (débit): 4.90× temps réel" report,
                             contains "Taux de réussite: 50.0%" report))
             (written (generate_summary_report repr_unused summary_half_failed true))
  = Some (true, true).
Proof. vm_compute. reflexivity. Qed.

(** * Further properties of the code *)

(** ** [generate_report] as a whole *)

Lemma report_html_result
    (dir : TranscriptionDir) (audio_filename : string) (content : string)
    (now_meta now_html : datetime) :
  report_html dir audio_filename (Some content) now_meta now_html
  = match report_metrics (_read_metrics_csv (monitoring_cpu dir))
                         (_read_metrics_csv (monitoring_memory dir))
                         (_read_metrics_csv (monitoring_power dir)) with
    | Ok metrics =>
      Ok (_generate_html_template now_html
            (fstr [ "Rapport de Transcription - "; audio_filename ])
            content (subtitles dir)
            (report_metadata audio_filename now_meta) metrics (load_graphs dir))
    | Raise e => Raise e
    end.
Proof.
  unfold report_html, subtitles. cbn [mbind result_bind mret result_ret].
  destruct (report_metrics _ _ _); reflexivity.
Qed.



Lemma report_is_template_of_first_matches
    (dir : TranscriptionDir) (audio_filename : string)
    (now_meta now_html : datetime) (writable : bool) (html : string)
    (Hwritten : written (generate_report dir audio_filename
                                         now_meta now_html writable) = Some html) :
  exists (content : string) (metrics : gmap string string),
    transcript dir = Some content
    /\ report_metrics (_read_metrics_csv (monitoring_cpu dir))
                      (_read_metrics_csv (monitoring_memory dir))
                      (_read_metrics_csv (monitoring_power dir)) = Ok metrics
    /\ html = _generate_html_template now_html
                (fstr [ "Rapport de Transcription - "; audio_filename ])
                content (subtitles dir)
                (report_metadata audio_filename now_meta) metrics
                (load_graphs dir).
Proof.
  revert Hwritten. unfold generate_report, transcript.
  destruct (txt_files dir) as [|[content|] rest]; [discriminate| |discriminate].
  rewrite report_html_result.
  destruct (report_metrics _ _ _) as [metrics|e]; [|discriminate].
  destruct writable; [|discriminate].
  cbn [written success]. intros [= <-].
  exists content, metrics. repeat split; reflexivity.
Qed.

(** X2. When no subtitle file matches, or the first match cannot be read, the
    report is still written under the same conditions and has no segments
    section: nothing stands between the end of the transcript section and the
    graphs slot. *)
Theorem no_subtitles_no_segments_section
    (dir : TranscriptionDir) (audio_filename : string)
    (now_meta now_html : datetime) (writable : bool) (html : string)
    (Hsrt : no_subtitles dir = true)
    (Hwritten : written (generate_report dir audio_filename
                                         now_meta now_html writable) = Some html) :
  subtitles dir = []
  /\ exists pre : string,
      html = pre +:+ html_transcription_close +:+ html_graphs_comment
                 +:+ graphs_section (load_graphs dir) +:+ html_script_tail.
Proof.
  assert (Hs : subtitles dir = []).
  { revert Hsrt. unfold no_subtitles, subtitles.
    destruct (srt_files dir) as [|[c|] rest]; [reflexivity|discriminate|reflexivity]. }
  split; [exact Hs|].
  apply report_is_template_of_first_matches in Hwritten
    as (content & metrics & _ & _ & ->).
  rewrite Hs. unfold _generate_html_template.
  eexists (fstr [ html_head_open; _; html_style_and_header; _;
                  html_subtitle_open; _; html_metrics_open; _;
                  html_metadata_open; _; html_metadata_model; _;
                  html_metadata_language; _; html_metadata_date; _;
                  html_transcription_open; _ ]).
  rewrite <- (fstr_app _ [ html_transcription_close; html_graphs_comment;
                           graphs_section (load_graphs dir); html_script_tail ]).
  reflexivity.
Qed.

(** A directory without subtitle files. *)
Lemma no_subtitles_no_segments_section_witness :
  no_subtitles bare_dir = true
  /\ written (generate_report bare_dir "test_audio" noon later true)
     = Some (report_of bare_dir "test_audio")
  /\ subtitles bare_dir = [].
Proof.
  assert (H : written (generate_report bare_dir "test_audio" noon later true)
              = Some (report_of bare_dir "test_audio"))
    by (vm_compute; reflexivity).
  split; [reflexivity|]. split; [exact H|].
  exact (proj1 (no_subtitles_no_segments_section
                  bare_dir "test_audio" noon later true _ eq_refl H)).
Defined.

(** X3. The transcript is put into the document as it is, with no escaping
    and no trimming: for every model but the transcript there are a prefix and
    a suffix such that the document is the prefix, the transcript, the
    suffix. *)
Theorem transcript_embedded_verbatim
    (now : datetime) (title : string) (segments : list Segment)
    (metadata metrics : gmap string string)
    (graph_images : list (string * option string)) :
  exists pre post : string,
    forall transcription_text : string,
      _generate_html_template now title transcription_text segments
                              metadata metrics graph_images
      = pre +:+ transcription_text +:+ post.
Proof.
  eexists (fstr [ html_head_open; _; html_style_and_header; _;
                  html_subtitle_open; _; html_metrics_open; _;
                  html_metadata_open; _; html_metadata_model; _;
                  html_metadata_language; _; html_metadata_date; _;
                  html_transcription_open ]).
  eexists (fstr (html_transcription_close :: _)).
  intros transcription_text. unfold _generate_html_template.
  rewrite <- fstr_middle. reflexivity.
Qed.

(** ** Embedded images *)

Lemma length_append_s (a b : string) :
  String.length (a +:+ b) = String.length a + String.length b.
Proof. induction a as [|c a IH]; cbn [String.append String.length]; [reflexivity|lia]. Qed.

Lemma has_char_app (c : ascii) (a b : string) :
  has_char c (a +:+ b) = has_char c a || has_char c b.
Proof.
  induction a as [|x a IH]; cbn [String.append has_char]; [reflexivity|].
  rewrite IH, orb_assoc. reflexivity.
Qed.

Lemma b64_char_in_alphabet (n : N) : is_b64_char (b64_char n) = true.
Proof.
  destruct (N.ltb_spec n 64) as [Hlt|Hge].
  - assert (Hall : forallb (fun k => is_b64_char (b64_char (N.of_nat k)))
                           (seq 0 64) = true) by (vm_compute; reflexivity).
    rewrite forallb_forall in Hall.
    rewrite <- (N2Nat.id n). apply Hall. apply in_seq. lia.
  - unfold b64_char.
    destruct (N.ltb_spec n 26); [lia|]. destruct (N.ltb_spec n 52); [lia|].
    destruct (N.ltb_spec n 62); [lia|]. destruct (N.eqb_spec n 62); [lia|].
    reflexivity.
Qed.

Lemma b64encode_unfold3 (a b c : ascii) (rest : string) :
  b64encode (String a (String b (String c rest)))
  = let n := (code a * 65536 + code b * 256 + code c)%N in
    String (b64_char (n / 262144))
      (String (b64_char ((n / 4096) mod 64))
         (String (b64_char ((n / 64) mod 64))
            (String (b64_char (n mod 64)) (b64encode rest)))).
Proof. reflexivity. Qed.

Lemma b64encode_shape_n (k : nat) :
  forall bytes : string,
    String.length bytes <= k ->
    all_chars is_b64_char (b64encode bytes) = true
    /\ String.length (b64encode bytes) = 4 * ((String.length bytes + 2) / 3).
Proof.
  induction k as [|k IH]; intros bytes Hk.
  - destruct bytes; [split; reflexivity|cbn in Hk; lia].
  - destruct bytes as [|a [|b [|c rest]]].
    + split; reflexivity.
    + split; [|reflexivity]. cbn [b64encode all_chars].
      rewrite !b64_char_in_alphabet. reflexivity.
    + split; [|reflexivity]. cbn [b64encode all_chars].
      rewrite !b64_char_in_alphabet. reflexivity.
    + rewrite b64encode_unfold3. cbv zeta.
      cbn [String.length] in Hk. destruct (IH rest ltac:(lia)) as [Ha Hl].
      split.
      * cbn [all_chars]. rewrite !b64_char_in_alphabet, Ha. reflexivity.
      * cbn [String.length]. rewrite Hl.
        replace (S (S (S (String.length rest))) + 2)
          with (String.length rest + 2 + 1 * 3) by lia.
        rewrite Nat.div_add by lia. lia.
Qed.

Lemma all_chars_no_char (p : ascii -> bool) (c : ascii) (s : string) :
  p c = false -> all_chars p s = true -> has_char c s = false.
Proof.
  intros Hc. induction s as [|a s IH]; [reflexivity|].
  cbn [all_chars has_char]. intros H. apply andb_true_iff in H as [Ha Hs].
  rewrite (IH Hs), orb_false_r.
  destruct (Ascii.eqb_spec a c) as [->|]; [congruence|reflexivity].
Qed.

(** X4. For every image file that can be read, whatever its path,
    [_image_to_base64] gives a data URI made of the prefix [data:], one of the
    three MIME types [image/png], [image/jpeg] and [image/gif], the separator
    [;base64,] and the payload; the payload holds only characters of the
    base64 alphabet and four of them for every three bytes started; the URI
    holds no double quote and is never empty, so it always shows as an image
    and cannot close the [src] attribute it is written into.  A file that
    cannot be read gives [None]. *)
Theorem image_data_uri_well_formed (image_path bytes : string) :
  (exists mime : string,
     _image_to_base64 image_path (Content bytes)
     = Some ("data:" +:+ mime +:+ ";base64," +:+ b64encode bytes)
     /\ In mime [ "image/png"; "image/jpeg"; "image/gif" ]
     /\ all_chars is_b64_char (b64encode bytes) = true
     /\ String.length (b64encode bytes) = 4 * ((String.length bytes + 2) / 3)
     /\ has_char dquote ("data:" +:+ mime +:+ ";base64," +:+ b64encode bytes) = false
     /\ truthy_str ("data:" +:+ mime +:+ ";base64," +:+ b64encode bytes) = true)
  /\ _image_to_base64 image_path Absent = None
  /\ _image_to_base64 image_path Unreadable = None.
Proof.
  split; [|split; reflexivity].
  destruct (b64encode_shape_n _ bytes (le_n _)) as [Ha Hl].
  pose proof (all_chars_no_char is_b64_char dquote _ eq_refl Ha) as Hq.
  exists (mime_type (py_lower (path_suffix image_path))).
  split.
  { unfold _image_to_base64. cbn [fstr fold_right]. rewrite app_nil_r_s. reflexivity. }
  assert (Hm : In (mime_type (py_lower (path_suffix image_path)))
                  [ "image/png"; "image/jpeg"; "image/gif" ]).
  { unfold mime_type.
    repeat match goal with
           | |- context [ if ?b then _ else _ ] => destruct b
           end; cbn; auto. }
  split; [exact Hm|]. split; [exact Ha|]. split; [exact Hl|]. split; [|reflexivity].
  rewrite !has_char_app, Hq.
  destruct Hm as [<-|[<-|[<-|[]]]]; reflexivity.
Qed.

Lemma rfind_absent (c : ascii) (s : string) :
  has_char c s = false -> rfind c s = None.
Proof.
  induction s as [|a s IH]; [reflexivity|].
  cbn [has_char rfind]. intros H. apply orb_false_iff in H as [Ha Hs].
  rewrite (IH Hs), Ha. reflexivity.
Qed.

Lemma rfind_last_separator (c : ascii) (a b : string) :
  has_char c b = false -> rfind c (a +:+ String c b) = Some (String.length a).
Proof.
  intros Hb. induction a as [|x a IH]; cbn [String.append rfind String.length].
  - rewrite (rfind_absent c b Hb), Ascii.eqb_refl. reflexivity.
  - rewrite IH. reflexivity.
Qed.

Lemma substring_all (s : string) : String.substring 0 (String.length s) s = s.
Proof. induction s as [|c s IH]; cbn; [reflexivity|]. rewrite IH. reflexivity. Qed.

Lemma substring_skip (a b : string) (c : ascii) :
  String.substring (S (String.length a)) (String.length b) (a +:+ String c b) = b.
Proof.
  induction a as [|x a IH]; cbn [String.append String.length String.substring].
  - apply substring_all.
  - exact IH.
Qed.

Lemma path_name_join (dir name : string) :
  has_char "/" name = false -> path_name (dir +:+ String "/" name) = name.
Proof.
  intros H. unfold path_name. rewrite (rfind_last_separator _ _ _ H).
  rewrite length_append_s. cbn [String.length].
  replace (String.length dir + S (String.length name) - S (String.length dir))
    with (String.length name) by lia.
  apply substring_skip.
Qed.

Lemma chart_image_is_png (dir name bytes : string) :
  In name graph_names ->
  _image_to_base64 (fstr [ dir; "/"; name ]) (Content bytes)
  = Some ("data:image/png;base64," +:+ b64encode bytes).
Proof.
  intros Hin. unfold _image_to_base64, path_suffix.
  cbn [fstr fold_right]. rewrite !app_nil_r_s.
  change (dir +:+ "/" +:+ name) with (dir +:+ String "/" name).
  destruct Hin as [<-|[<-|[<-|[]]]];
    (rewrite path_name_join by reflexivity); reflexivity.
Qed.

(** X5. The image dictionary that [generate_report] builds follows the three
    chart names in the order CPU, memory, power: a chart file that does not
    exist gives no entry, one that exists and cannot be read gives an entry
    without encoding, and one that can be read gives an entry whose encoding
    is the [image/png] data URI of its bytes, whatever the path of the
    directory. *)
Theorem chart_images_in_fixed_order (dir : TranscriptionDir) :
  load_graphs dir
  = flat_map
      (fun name =>
         match images dir name with
         | Absent => []
         | Unreadable => [ (name, None) ]
         | Content bytes =>
           [ (name, Some ("data:image/png;base64," +:+ b64encode bytes)) ]
         end)
      [ "cpu_usage.png"; "memory_usage.png"; "power_usage.png" ].
Proof.
  unfold load_graphs. cbn [fold_left flat_map].
  destruct (images dir "cpu_usage.png") as [| |b1] eqn:E1;
    destruct (images dir "memory_usage.png") as [| |b2] eqn:E2;
    destruct (images dir "power_usage.png") as [| |b3] eqn:E3;
    cbn [exists_];
    rewrite ?(chart_image_is_png (dir_path dir) "cpu_usage.png")
      by (cbn; auto);
    rewrite ?(chart_image_is_png (dir_path dir) "memory_usage.png")
      by (cbn; auto);
    rewrite ?(chart_image_is_png (dir_path dir) "power_usage.png")
      by (cbn; auto);
    reflexivity.
Qed.

(** ** The segments of a subtitle file *)

Lemma strip_prefix_NL_none (s : string) :
  strip_prefix NL s = None -> starts_nl s = false.
Proof.
  destruct s as [|c s]; [reflexivity|]. unfold NL. cbn [strip_prefix starts_nl].
  rewrite (Ascii.eqb_sym c nl). destruct (Ascii.eqb nl c); [discriminate|reflexivity].
Qed.

Lemma split_nl_pieces (n : nat) :
  forall s, String.length s < n ->
            Forall (fun p => has_char nl p = false) (split_fuel n NL s).
Proof.
  induction n as [|n IH]; intros s Hn; [lia|].
  rewrite split_fuel_S. destruct (strip_prefix NL s) as [rest|] eqn:E.
  - apply strip_prefix_length in E. cbn [NL String.length] in E.
    constructor; [reflexivity|]. apply IH. lia.
  - apply strip_prefix_NL_none in E.
    destruct s as [|c s]; [repeat constructor|].
    cbn [String.length] in Hn. cbn [starts_nl] in E.
    pose proof (IH s ltac:(lia)) as HF.
    destruct (split_fuel n NL s) as [|p ps]; cbn [cons_head].
    + repeat constructor. cbn [has_char]. rewrite E. reflexivity.
    + inversion HF; subst. constructor; [|assumption].
      cbn [has_char]. rewrite E. assumption.
Qed.

Lemma join_no_newline (l : list string) :
  Forall (fun p => has_char nl p = false) l ->
  has_char nl (py_join " " l) = false.
Proof.
  induction 1 as [|x l Hx Hl IH]; [reflexivity|].
  destruct l as [|y l]; [exact Hx|].
  cbn [py_join] in *. rewrite !has_char_app, Hx, IH. reflexivity.
Qed.

Lemma join_nonempty (l : list string) (x : string) :
  x <> "" -> py_join " " (x :: l) <> "".
Proof.
  intros Hx. destruct l; cbn [py_join]; [exact Hx|].
  apply append_nonempty_l. exact Hx.
Qed.

Lemma Forall_skipn {A} (P : A -> Prop) (k : nat) (l : list A) :
  Forall P l -> Forall P (skipn k l).
Proof.
  intros H. revert l H. induction k as [|k IH]; intros l H; [exact H|].
  destruct H; [constructor|]. cbn [skipn]. apply IH. assumption.
Qed.

Lemma nonempty_true (s : string) : nonempty s = true -> s <> "".
Proof. destruct s; [discriminate|discriminate]. Qed.

(** X6. Every segment the parser returns has a non-empty index, a non-empty
    time range and a non-empty text, and none of the three holds a line break:
    the lines of the text are joined with spaces. *)
Theorem segments_are_single_lines (content : string) :
  Forall (fun seg =>
            index seg <> "" /\ timestamps seg <> "" /\ text seg <> ""
            /\ has_char nl (index seg) = false
            /\ has_char nl (timestamps seg) = false
            /\ has_char nl (text seg) = false)
         (parse_srt_content content).
Proof.
  unfold parse_srt_content. rewrite fold_left_cond_snoc, app_nil_l.
  pose proof (split_nlnl_pieces _ (py_strip content) (Nat.lt_succ_diag_r _)) as HF.
  fold (py_split NLNL (py_strip content)) in HF.
  induction HF as [|b bs Hb _ IH]; [constructor|].
  cbn [List.filter].
  destruct (3 <=? length (py_split NL (py_strip b))) eqn:Hq; [|exact IH].
  cbn [map]. constructor; [|exact IH]. cbn [index timestamps text].
  apply Nat.leb_le in Hq.
  pose proof (split_nl_pieces _ (py_strip b) (Nat.lt_succ_diag_r _)) as Hnl.
  fold (py_split NL (py_strip b)) in Hnl.
  destruct (lines_of_block b Hb) as [E|Hne]; [rewrite E in Hq; cbn in Hq; lia|].
  destruct (py_split NL (py_strip b)) as [|l1 [|l2 [|l3 ls]]];
    cbn [length] in Hq; try lia.
  inversion Hne as [|? ? N1 Hne2]; subst. inversion Hne2 as [|? ? N2 Hne3]; subst.
  inversion Hne3 as [|? ? N3 _]; subst.
  inversion Hnl as [|? ? L1 Hnl2]; subst. inversion Hnl2 as [|? ? L2 Hnl3]; subst.
  cbn [nth skipn].
  repeat split; auto using nonempty_true.
  - apply join_nonempty, nonempty_true, N3.
  - apply join_no_newline, Hnl3.
Qed.

(** X7. A subtitle file that holds nothing but white space, like one that
    cannot be read, gives no segment and no error. *)
Theorem blank_subtitles_give_no_segment (content : string)
    (Hblank : py_strip content = "") :
  _parse_srt_file (Some content) = [] /\ _parse_srt_file None = [].
Proof.
  split; [|reflexivity].
  unfold _parse_srt_file, parse_srt_content. rewrite Hblank. reflexivity.
Qed.

(** Spaces, line breaks and a no-break space. *)
Lemma blank_subtitles_give_no_segment_witness :
  py_strip (fstr [ "  "; NLNL; String (ascii_of_N 0xC2) (String (ascii_of_N 0xA0) "");
                   NL; " " ]) = ""
  /\ _parse_srt_file
       (Some (fstr [ "  "; NLNL;
                     String (ascii_of_N 0xC2) (String (ascii_of_N 0xA0) "");
                     NL; " " ])) = [].
Proof.
  assert (H : py_strip (fstr [ "  "; NLNL;
                               String (ascii_of_N 0xC2) (String (ascii_of_N 0xA0) "");
                               NL; " " ]) = "") by reflexivity.
  split; [exact H|].
  exact (proj1 (blank_subtitles_give_no_segment _ H)).
Defined.

(** ** The generation timestamp *)






(** ** Charts *)

Lemma df_nonempty_rows (df : DataFrame) : df_empty df = false -> 0 < df_len df.
Proof.
  unfold df_empty. intros H. apply orb_false_iff in H as [_ H].
  apply Nat.eqb_neq in H. lia.
Qed.

(** X9. [plot_cpu_usage] saves a figure exactly when the log is read, has at
    least one column and one row, has the column [CPU_Usage_Percent], pandas
    answers the mean and the maximum of that column, and the image can be
    saved; it returns [True] exactly when moreover the maximum is a number, so
    that a maximum without a float format leaves the image behind a call that
    returns [False].  The figure plots the column, one point per row, on the
    fixed range 0 to 100, with a single reference line at the mean, labelled
    with the mean to one decimal. *)
Theorem cpu_chart_drawn_exactly_when (log : file DataFrame) (savable : bool) :
  (is_Some (written (plot_cpu_usage log savable))
   <-> exists df series mean max_cpu,
         log = Content df /\ df_empty df = false
         /\ df_getitem df "CPU_Usage_Percent" = Ok series
         /\ series_mean series = Ok mean /\ series_max series = Ok max_cpu
         /\ savable = true)
  /\ (returned (plot_cpu_usage log savable) = true
      <-> is_Some (written (plot_cpu_usage log savable))
          /\ exists df series,
               log = Content df
               /\ df_getitem df "CPU_Usage_Percent" = Ok series
               /\ numeric_max series = true)
  /\ (forall figure : Panel,
        written (plot_cpu_usage log savable) = Some figure ->
        exists df series mean,
          log = Content df
          /\ df_getitem df "CPU_Usage_Percent" = Ok series
          /\ series_mean series = Ok mean
          /\ length (values series) = df_len df
          /\ panel_series figure = values series
          /\ panel_ylim figure = Some (0, 100)%Z
          /\ panel_hlines figure
             = [ (Num mean, "Moyenne: " +:+ format_f 1 mean +:+ "%") ]).
Proof.
  unfold plot_cpu_usage, plot_cpu_body, numeric_max.
  destruct log as [| |df]; cbn [read_csv mbind result_bind].
  1,2: (split; [split; [intros [x Hx]; discriminate
                       |intros (df & s & m & x & H & _); discriminate]|];
        split; [split; [discriminate|intros [[x Hx] _]; discriminate]|];
        intros figure H; discriminate).
  destruct (df_empty df) eqn:Hempty.
  { cbn. split; [split; [intros [x Hx]; discriminate
                        |intros (d & s & m & x & [= <-] & H & _); congruence]|].
    split; [split; [discriminate|intros [[x Hx] _]; discriminate]|].
    intros figure H; discriminate. }
  destruct (df_getitem df "CPU_Usage_Percent") as [series|e] eqn:Eg;
    cbn [mbind result_bind].
  2: { cbn. split; [split; [intros [x Hx]; discriminate
                           |intros (d & s & m & x & [= <-] & _ & H & _); congruence]|].
       split; [split; [discriminate|intros [[x Hx] _]; discriminate]|].
       intros figure H; discriminate. }
  destruct (series_mean series) as [mean|e] eqn:Em; cbn [mbind result_bind].
  2: { cbn. split; [split; [intros [x Hx]; discriminate|]|].
       { intros (d & s & m & x & [= <-] & _ & H & H' & _).
         rewrite Eg in H. injection H as <-. congruence. }
       split; [split; [discriminate|intros [[x Hx] _]; discriminate]|].
       intros figure H; discriminate. }
  destruct (series_max series) as [max_cpu|e] eqn:Ex; cbn [mbind result_bind].
  2: { cbn. split; [split; [intros [x Hx]; discriminate|]|].
       { intros (d & s & m & x & [= <-] & _ & H & _ & H' & _).
         rewrite Eg in H. injection H as <-. congruence. }
       split; [split; [discriminate|intros [[x Hx] _]; discriminate]|].
       intros figure H; discriminate. }
  destruct savable.
  2: { cbn. split; [split; [intros [x Hx]; discriminate
                           |intros (d & s & m & x & _ & _ & _ & _ & _ & H); discriminate]|].
       split; [split; [discriminate|intros [[x Hx] _]; discriminate]|].
       intros figure H; discriminate. }
  assert (Hfig : forall figure : Panel,
             Some {| panel_title := "Utilisation CPU - Station TV";
                     panel_series := values series;
                     panel_hlines :=
                       [ (Num mean, fstr [ "Moyenne: "; format_f 1 mean; "%" ]) ];
                     panel_ylim := Some (0, 100)%Z |} = Some figure ->
             exists d s m,
               Content df = Content d
               /\ df_getitem d "CPU_Usage_Percent" = Ok s
               /\ series_mean s = Ok m
               /\ length (values s) = df_len d
               /\ panel_series figure = values s
               /\ panel_ylim figure = Some (0, 100)%Z
               /\ panel_hlines figure
                  = [ (Num m, "Moyenne: " +:+ format_f 1 m +:+ "%") ]).
  { intros figure [= <-]. exists df, series, mean.
    repeat split;
      first [ exact Eg | exact Em | exact (getitem_length _ _ _ Eg) | reflexivity ]. }
  destruct max_cpu as [x|t]; cbn [format_cell mret result_ret returned written success].
  - split; [split; [intros _; exists df, series, mean, (Num x); auto 10
                   |intros _; eexists; reflexivity]|].
    split; [|exact Hfig].
    split; [intros _; split; [eexists; reflexivity|]|reflexivity].
    exists df, series. rewrite Ex. auto.
  - split; [split; [intros _; exists df, series, mean, (Text t); auto 10
                   |intros _; eexists; reflexivity]|].
    split; [|exact Hfig].
    split; [discriminate|].
    intros (_ & d & s & [= <-] & H & Hn). rewrite Eg in H. injection H as <-.
    rewrite Ex in Hn. discriminate.
Qed.

(** The chart of a log with the values 10, 20 and 30. *)
Lemma cpu_chart_drawn_exactly_when_witness :
  written (plot_cpu_usage (Content cpu_log) true)
  = Some {| panel_title := "Utilisation CPU - Station TV";
            panel_series := [ int_cell 10; int_cell 20; int_cell 30 ];
            panel_hlines := [ (int_cell 20, "Moyenne: 20.0%") ];
            panel_ylim := Some (0, 100)%Z |}
  /\ exists df series mean,
      Content cpu_log = Content df
      /\ df_getitem df "CPU_Usage_Percent" = Ok series
      /\ series_mean series = Ok mean
      /\ length (values series) = df_len df.
Proof.
  assert (H : written (plot_cpu_usage (Content cpu_log) true)
              = Some {| panel_title := "Utilisation CPU - Station TV";
                        panel_series := [ int_cell 10; int_cell 20; int_cell 30 ];
                        panel_hlines := [ (int_cell 20, "Moyenne: 20.0%") ];
                        panel_ylim := Some (0, 100)%Z |})
    by (vm_compute; reflexivity).
  split; [exact H|].
  destruct (cpu_chart_drawn_exactly_when (Content cpu_log) true) as (_ & _ & Hf).
  destruct (Hf _ H) as (df & series & mean & E & Eg & Em & El & _).
  exists df, series, mean. repeat split; assumption.
Defined.

(** X10. A figure that [plot_memory_usage] saves comes from a log that is
    read and has the column [Memory_Usage_Percent].  Its first panel plots
    that column on the fixed range 0 to 100 with two reference lines, the mean
    that pandas answers and the alert threshold 90.  The second panel is drawn
    exactly when both [Memory_Used_GB] and [Memory_Total_GB] are there, and
    then plots the used memory with one reference line at the total of the
    first row, which is a number, labelled to one decimal. *)
Theorem memory_chart_panels
    (log : file DataFrame) (savable : bool) (ax1 : Panel) (ax2 : option Panel)
    (Hwritten : written (plot_memory_usage log savable) = Some (ax1, ax2)) :
  exists df series mean,
    log = Content df /\ df_empty df = false /\ savable = true
    /\ df_getitem df "Memory_Usage_Percent" = Ok series
    /\ series_mean series = Ok mean
    /\ panel_series ax1 = values series
    /\ panel_ylim ax1 = Some (0, 100)%Z
    /\ panel_hlines ax1
       = [ (Num mean, "Moyenne: " +:+ format_f 1 mean +:+ "%");
           (Num (float_of_Z 90), "Seuil alerte: 90%") ]
    /\ (is_Some ax2
        <-> has_column df "Memory_Used_GB" && has_column df "Memory_Total_GB" = true)
    /\ (forall panel, ax2 = Some panel ->
          exists used total x,
            df_getitem df "Memory_Used_GB" = Ok used
            /\ df_getitem df "Memory_Total_GB" = Ok total
            /\ iloc_first total = Ok (Num x)
            /\ panel_series panel = values used
            /\ panel_hlines panel
               = [ (Num x, "RAM totale: " +:+ format_f 1 x +:+ " Go") ]).
Proof.
  revert Hwritten. unfold plot_memory_usage, plot_memory_body.
  destruct log as [| |df]; cbn [read_csv mbind result_bind]; try discriminate.
  destruct (df_empty df) eqn:Hempty; [discriminate|].
  destruct (df_getitem df "Memory_Usage_Percent") as [series|e] eqn:Eg;
    cbn [mbind result_bind]; [|discriminate].
  destruct (series_mean series) as [mean|e] eqn:Em;
    cbn [mbind result_bind]; [|discriminate].
  destruct (series_max series) as [max_mem|e] eqn:Ex;
    cbn [mbind result_bind]; [|discriminate].
  destruct (has_column df "Memory_Used_GB" && has_column df "Memory_Total_GB")
    eqn:Hboth.
  - destruct (df_getitem df "Memory_Used_GB") as [used|e] eqn:Eu;
      cbn [mbind result_bind]; [|discriminate].
    destruct (df_getitem df "Memory_Total_GB") as [total|e] eqn:Et;
      cbn [mbind result_bind]; [|discriminate].
    destruct (iloc_first total) as [[x|t]|e] eqn:E0;
      cbn [mbind result_bind format_cell]; [|discriminate..].
    destruct savable; [|discriminate].
    intros H.
    assert (H' : (ax1, ax2)
                 = ({| panel_title := "Utilisation RAM (%) - Station TV";
                       panel_series := values series;
                       panel_hlines :=
                         [ (Num mean, fstr [ "Moyenne: "; format_f 1 mean; "%" ]);
                           (Num (float_of_Z 90), "Seuil alerte: 90%") ];
                       panel_ylim := Some (0, 100)%Z |},
                    Some {| panel_title := "Utilisation RAM (Go) - Station TV";
                            panel_series := values used;
                            panel_hlines :=
                              [ (Num x,
                                 fstr [ "RAM totale: "; format_f 1 x; " Go" ]) ];
                            panel_ylim := None |})).
    { destruct (format_cell 1 max_mem);
        cbn [mbind result_bind mret result_ret written success] in H; congruence. }
    injection H' as -> ->.
    exists df, series, mean.
    repeat (split; [first [assumption|reflexivity]|]).
    split; [split; [intros _; exact Hboth|intros _; eexists; reflexivity]|].
    intros panel [= <-]. exists used, total, x.
    repeat split; first [assumption|reflexivity].
  - cbn [mbind result_bind mret result_ret].
    destruct savable; [|discriminate].
    intros H.
    assert (H' : (ax1, ax2)
                 = ({| panel_title := "Utilisation RAM (%) - Station TV";
                       panel_series := values series;
                       panel_hlines :=
                         [ (Num mean, fstr [ "Moyenne: "; format_f 1 mean; "%" ]);
                           (Num (float_of_Z 90), "Seuil alerte: 90%") ];
                       panel_ylim := Some (0, 100)%Z |}, None)).
    { destruct (format_cell 1 max_mem);
        cbn [mbind result_bind mret result_ret written success] in H; congruence. }
    injection H' as -> ->.
    exists df, series, mean.
    repeat (split; [first [assumption|reflexivity]|]).
    split; [split; [intros [p Hp]; discriminate|rewrite Hboth; discriminate]|].
    intros panel Hp. discriminate Hp.
Qed.

(** The chart of a log that has the two columns in gigabytes. *)
Lemma memory_chart_panels_witness :
  option_map (fun panels => option_map panel_hlines (snd panels))
             (written (plot_memory_usage (Content memory_log_gb) true))
  = Some (Some [ (int_cell 16, "RAM totale: 16.0 Go") ])
  /\ exists df series mean,
      Content memory_log_gb = Content df
      /\ df_getitem df "Memory_Usage_Percent" = Ok series
      /\ series_mean series = Ok mean.
Proof.
  split; [vm_compute; reflexivity|].
  destruct (written (plot_memory_usage (Content memory_log_gb) true))
    as [[ax1 ax2]|] eqn:H; [|vm_compute in H; discriminate H].
  destruct (memory_chart_panels _ _ _ _ H)
    as (df & series & mean & E & _ & _ & Eg & Em & _).
  exists df, series, mean. repeat split; assumption.
Defined.
(** ** Readings and keys *)

Lemma last_snoc_map {A B} (f : A -> B) (l : list A) (x : A) :
  last (map f (l ++ [x])) = Some (f x).
Proof. rewrite map_app. cbn [map]. apply last_snoc. Qed.

(** X11. The energy field is the reading of the last row of the power log
    and of no other row: whatever the earlier rows hold, it is the cell of the
    column [Energy_kWh] in the last row, which is a number, written with three
    decimals and the unit. *)
Theorem energy_is_the_last_reading
    (cpu memory : option DataFrame) (power : DataFrame)
    (earlier : list (list cell)) (last_row : list cell) (i : nat)
    (metrics : gmap string string)
    (Hrows : rows power = earlier ++ [ last_row ])
    (Hcol : index_of "Energy_kWh" (columns power) = Some i)
    (Hbuilt : report_metrics cpu memory (Some power) = Ok metrics) :
  exists x : pyfloat,
    nth i last_row (Num NaN) = Num x
    /\ metrics !! "energy_total" = Some (format_f 3 x +:+ " kWh").
Proof.
  apply report_metrics_built in Hbuilt as (c & me & e & -> & _ & _ & He).
  destruct (snapshot_lookup c me e) as (_ & _ & -> & _).
  cbn [energy_value] in He.
  assert (Hlen : (0 <? df_len power) = true).
  { apply Nat.ltb_lt. unfold df_len. rewrite Hrows, length_app. cbn. lia. }
  rewrite Hlen in He. destruct He as (series & x & Eg & El & ->).
  unfold df_getitem in Eg. rewrite Hcol, Hrows in Eg. injection Eg as <-.
  cbn [values] in El. rewrite last_snoc_map in El. injection El as El.
  exists x. split; [exact El|].
  unfold kwh. cbn [fstr fold_right]. reflexivity.
Qed.

(** The power log of the examples: two rows, the energy in the third column. *)
Lemma energy_is_the_last_reading_witness :
  rows power_log = [ [ int_cell 0; int_cell 65; Num (dbl 1 1000) ] ]
                   ++ [ [ int_cell 1; int_cell 70; Num (dbl 25 1000) ] ]
  /\ index_of "Energy_kWh" (columns power_log) = Some 2
  /\ exists x : pyfloat,
      Num (dbl 25 1000) = Num x
      /\ snapshot "N/A" "N/A" "0.025 kWh" !! "energy_total"
         = Some (format_f 3 x +:+ " kWh").
Proof.
  split; [reflexivity|]. split; [reflexivity|].
  assert (H : report_metrics None None (Some power_log)
              = Ok (snapshot "N/A" "N/A" "0.025 kWh")) by (vm_compute; reflexivity).
  exact (energy_is_the_last_reading None None power_log
           [ [ int_cell 0; int_cell 65; Num (dbl 1 1000) ] ]
           [ int_cell 1; int_cell 70; Num (dbl 25 1000) ]
           2 _ eq_refl eq_refl H).
Defined.

(** X12. The summary report reads nine keys and nothing else: putting any
    other key into the dictionary, or taking one out, changes nothing of what
    is written nor of what is returned. *)
Theorem summary_ignores_other_keys
    (float_repr : pyfloat -> string) (metrics_summary : gmap string pyval)
    (key : string) (value : pyval) (writable : bool)
    (Hother : ~ In key summary_keys) :
  generate_summary_report float_repr (<[key := value]> metrics_summary) writable
  = generate_summary_report float_repr metrics_summary writable
  /\ generate_summary_report float_repr (delete key metrics_summary) writable
     = generate_summary_report float_repr metrics_summary writable.
Proof.
  assert (Hget : forall k, In k summary_keys ->
            dict_get (<[key := value]> metrics_summary) k (PInt 0)
            = dict_get metrics_summary k (PInt 0)
            /\ dict_get (delete key metrics_summary) k (PInt 0)
               = dict_get metrics_summary k (PInt 0)).
  { intros k Hk. assert (Hne : key <> k) by (intros ->; contradiction).
    unfold dict_get. rewrite lookup_insert_ne, lookup_delete_ne by exact Hne.
    split; reflexivity. }
  unfold generate_summary_report, summary_steps.
  split.
  - repeat match goal with
           | |- context [ dict_get (<[key := value]> metrics_summary) ?k _ ] =>
             rewrite (proj1 (Hget k ltac:(cbn; tauto)))
           end.
    reflexivity.
  - repeat match goal with
           | |- context [ dict_get (delete key metrics_summary) ?k _ ] =>
             rewrite (proj2 (Hget k ltac:(cbn; tauto)))
           end.
    reflexivity.
Qed.

(** A session summary to which the name of the machine is added. *)
Lemma summary_ignores_other_keys_witness :
  ~ In "hostname" summary_keys
  /\ generate_summary_report repr_unused (<["hostname" := PStr "tv-01"]> session) true
     = generate_summary_report repr_unused session true.
Proof.
  assert (H : ~ In "hostname" summary_keys).
  { cbn. intros H.
    repeat (destruct H as [H|H]; [discriminate H|]). exact H. }
  split; [exact H|].
  exact (proj1 (summary_ignores_other_keys repr_unused session "hostname"
                  (PStr "tv-01") true H)).
Defined.
(** ** The metadata grid and the segments of the document *)

Lemma dict_get_empty {V} (key : string) (dflt : V) :
  dict_get (∅ : gmap string V) key dflt = dflt.
Proof. unfold dict_get. rewrite lookup_empty. reflexivity. Qed.

Lemma template_around_metadata
    (now : datetime) (title transcription_text : string)
    (segments : list Segment) (metadata metrics : gmap string string)
    (graph_images : list (string * option string)) :
  _generate_html_template now title transcription_text segments
                          metadata metrics graph_images
  = fstr [ html_head_open; title; html_style_and_header; title;
           html_subtitle_open; strftime "%d/%m/%Y à %H:%M:%S" now;
           html_metrics_open; metrics_cards metrics ]
    +:+ fstr [ html_metadata_open; dict_get metadata "filename" "N/A";
               html_metadata_model; dict_get metadata "model" "N/A";
               html_metadata_language; dict_get metadata "language" "N/A";
               html_metadata_date; dict_get metadata "date" "N/A" ]
    +:+ fstr [ html_transcription_open; transcription_text;
               html_transcription_close; segments_section segments;
               html_graphs_comment; graphs_section graph_images;
               html_script_tail ].
Proof.
  unfold _generate_html_template.
  rewrite <- (fstr_app
                [ html_metadata_open; dict_get metadata "filename" "N/A";
                  html_metadata_model; dict_get metadata "model" "N/A";
                  html_metadata_language; dict_get metadata "language" "N/A";
                  html_metadata_date; dict_get metadata "date" "N/A" ]).
  rewrite <- (fstr_app
                [ html_head_open; title; html_style_and_header; title;
                  html_subtitle_open; strftime "%d/%m/%Y à %H:%M:%S" now;
                  html_metrics_open; metrics_cards metrics ]).
  reflexivity.
Qed.

(** X13. The document holds, at one fixed place, a metadata grid of four
    items in the order file name, model, language, date; each value is read
    with the default ['N/A'], so a metadata dictionary that lacks a key, the
    empty one included, shows the marker for it; what stands around the four
    values does not depend on the metadata. *)
Theorem metadata_grid_four_items
    (now : datetime) (title transcription_text : string)
    (segments : list Segment) (metrics : gmap string string)
    (graph_images : list (string * option string)) :
  exists pre post : string,
    forall metadata : gmap string string,
      _generate_html_template now title transcription_text segments
                              metadata metrics graph_images
      = pre
        +:+ fstr [ html_metadata_open; dict_get metadata "filename" "N/A";
                   html_metadata_model; dict_get metadata "model" "N/A";
                   html_metadata_language; dict_get metadata "language" "N/A";
                   html_metadata_date; dict_get metadata "date" "N/A" ]
        +:+ post
      /\ (forall key : string, dict_get (delete key metadata) key "N/A" = "N/A")
      /\ _generate_html_template now title transcription_text segments
                                 ∅ metrics graph_images
         = pre
           +:+ fstr [ html_metadata_open; "N/A"; html_metadata_model; "N/A";
                      html_metadata_language; "N/A"; html_metadata_date; "N/A" ]
           +:+ post.
Proof.
  exists (fstr [ html_head_open; title; html_style_and_header; title;
                 html_subtitle_open; strftime "%d/%m/%Y à %H:%M:%S" now;
                 html_metrics_open; metrics_cards metrics ]).
  exists (fstr [ html_transcription_open; transcription_text;
                 html_transcription_close; segments_section segments;
                 html_graphs_comment; graphs_section graph_images;
                 html_script_tail ]).
  intros metadata. split; [apply template_around_metadata|]. split.
  - intros key. unfold dict_get. rewrite lookup_delete_eq. reflexivity.
  - rewrite template_around_metadata, !dict_get_empty. reflexivity.
Qed.

Lemma segment_markup_same (segments segments' : list Segment) :
  map (fun seg => (timestamps seg, text seg)) segments
  = map (fun seg => (timestamps seg, text seg)) segments' ->
  map segment_markup segments = map segment_markup segments'.
Proof.
  revert segments'.
  induction segments as [|seg l IH]; intros [|seg' l'] H;
    try discriminate; [reflexivity|].
  cbn [map] in H |- *. injection H as Ht Hx Hl.
  rewrite (IH l' Hl). unfold segment_markup. rewrite Ht, Hx. reflexivity.
Qed.

(** X14. The document shows the time range and the text of each segment and
    never its index: two lists of segments that agree on time ranges and texts
    give the same document. *)
Theorem segment_index_not_rendered
    (now : datetime) (title transcription_text : string)
    (segments segments' : list Segment) (metadata metrics : gmap string string)
    (graph_images : list (string * option string))
    (Hsame : map (fun seg => (timestamps seg, text seg)) segments
             = map (fun seg => (timestamps seg, text seg)) segments') :
  _generate_html_template now title transcription_text segments
                          metadata metrics graph_images
  = _generate_html_template now title transcription_text segments'
                            metadata metrics graph_images.
Proof.
  assert (Hsec : segments_section segments = segments_section segments').
  { unfold segments_section.
    rewrite !segments_html_markup, (segment_markup_same _ _ Hsame).
    destruct segments as [|s l]; destruct segments' as [|s' l'];
      try discriminate Hsame; reflexivity. }
  unfold _generate_html_template. rewrite Hsec. reflexivity.
Qed.

(** Two cues renumbered. *)
Lemma segment_index_not_rendered_witness :
  _generate_html_template noon "Rapport" "Bonjour"
    [ {| index := "1"; timestamps := "00:00:00,000 --> 00:00:02,000";
         text := "Bonjour" |} ] ∅ ∅ []
  = _generate_html_template noon "Rapport" "Bonjour"
      [ {| index := "7"; timestamps := "00:00:00,000 --> 00:00:02,000";
           text := "Bonjour" |} ] ∅ ∅ [].
Proof.
  exact (segment_index_not_rendered noon "Rapport" "Bonjour"
           [ {| index := "1"; timestamps := "00:00:00,000 --> 00:00:02,000";
                text := "Bonjour" |} ]
           [ {| index := "7"; timestamps := "00:00:00,000 --> 00:00:02,000";
                text := "Bonjour" |} ] ∅ ∅ [] eq_refl).
Defined.
